(** * Supermarket receipt: the discount calculator, the cart, the receipt and
      the teller, embedded from the Python sources.

    Numbers.  Python's [int] and [float] values are embedded as exact
    numbers: an [int] is a [Z], a [float] (prices, amounts, quantities as the
    cart holds them) is a rational [Q], and the arithmetic operators are the
    exact ones.  The rounding error of binary64 arithmetic, infinities and
    NaN are outside this model; in particular a product such as 0.5 * 1.99
    is a decimal tie here and is not one in binary64, so [round] is only
    relied on for what it is applied to, not for the digit it produces on a
    tie.  Equality of amounts is numeric equality ([Qeq], written [==]), as
    Python's [==] on numbers is.  What is stated of an amount is therefore
    kept to the expression the code evaluates, to values that are computed
    without rounding, and to signs that do not rest on a cancellation; a
    re-associated formula or a sign at the exact boundary is not stated.

    Exceptions.  A function that can raise returns a [result]; a method that
    mutates its receiver returns the new receiver. *)

From Stdlib Require Import ZArith QArith Qround Lqa Lia List String Bool.
Import ListNotations.

Local Open Scope Z_scope.
Local Open Scope Q_scope.

(** ** Products (model_objects.py), the keys of both dictionaries *)

(** [Product] is a dataclass, compared field by field. *)
Inductive ProductUnit : Set :=
| EACH
| KILO.

Module Product.
Record t : Set := mk { name : string; unit : ProductUnit }.

Definition unit_eqb (u v : ProductUnit) : bool :=
  match u, v with
  | EACH, EACH | KILO, KILO => true
  | _, _ => false
  end.

(** The generated [__eq__]: the tuples (name, unit) are equal. *)
Definition eqb (p q : t) : bool :=
  String.eqb (name p) (name q) && unit_eqb (unit p) (unit q).
End Product.

(** ** Exceptions and the error monad *)

Inductive exception : Set :=
| ValueError (msg : string)
| ZeroDivisionError
| KeyError (key : Product.t).

Inductive result (A : Type) : Type :=
| Ok (a : A)
| Raise (e : exception).
Arguments Ok {A} a.
Arguments Raise {A} e.

Definition bind {A B : Type} (m : result A) (k : A -> result B) : result B :=
  match m with
  | Ok a => k a
  | Raise e => Raise e
  end.

Declare Scope result_scope.
Delimit Scope result_scope with result.
Notation "x <- m ;; k" := (bind m (fun x => k))
  (at level 61, m at next level, right associativity) : result_scope.
Local Open Scope result_scope.

(** ** Python's numeric built-ins, on exact numbers *)

Definition Qlt_bool (x y : Q) : bool := negb (Qle_bool y x).

(** [int(x)] on a float: truncation toward zero. *)
Definition int (x : Q) : Z := Z.quot (Qnum x) (Zpos (Qden x)).

(** [a // b] and [a % b] on ints: floor division, the remainder has the sign
    of the divisor, and a zero divisor raises. *)
Definition floordiv (a b : Z) : result Z :=
  if (b =? 0)%Z then Raise ZeroDivisionError else Ok (a / b)%Z.

Definition pymod (a b : Z) : result Z :=
  if (b =? 0)%Z then Raise ZeroDivisionError else Ok (a mod b)%Z.

(** [sum(xs)]: starts from 0 and adds from the left. *)
Definition sum (xs : list Q) : Q := fold_left Qplus xs 0.

(** Rounding to the nearest integer, ties to the even one. *)
Definition round_half_even (x : Q) : Z :=
  let f := Qfloor x in
  let r := x - inject_Z f in
  if Qlt_bool r (1 # 2) then f
  else if Qlt_bool (1 # 2) r then (f + 1)%Z
  else if Z.even f then f else (f + 1)%Z.

(** [round(x, ndigits)] for [ndigits >= 0]. *)
Definition round (x : Q) (ndigits : nat) : Q :=
  let scale := inject_Z (10 ^ Z.of_nat ndigits) in
  inject_Z (round_half_even (x * scale)) / scale.

(** An f-string, kept as its literal pieces and the values interpolated into
    it (the decimal rendering of a float is not modelled). *)
Inductive fragment : Set :=
| Lit (s : string)
| IntField (z : Z)
| NumField (x : Q).

(** ** model_objects.py *)

Module ProductQuantity.
Record t : Set := mk { product : Product.t; quantity : Q }.
End ProductQuantity.

(** The four members of the enumeration; [OTHER] stands for a value that is
    not a member (the annotation is not enforced, and the test-suite passes
    such a value), carrying its printed form. *)
Inductive OfferType : Set :=
| THREE_FOR_TWO
| TEN_PERCENT_DISCOUNT
| TWO_FOR_AMOUNT
| FIVE_FOR_AMOUNT
| OTHER (repr : string).

Module Offer.
Record t : Set := mk { offer_type : OfferType; argument : Q }.
End Offer.

Module Discount.
Record t : Set := mk {
  product : Product.t;
  description : list fragment;
  discount_amount : Q
}.
End Discount.

(** ** A [dict] keyed by products: insertion-ordered, one entry per key *)

Module PyDict.
Definition t (V : Type) : Type := list (Product.t * V).

Definition empty {V : Type} : t V := [].

Fixpoint get {V : Type} (d : t V) (k : Product.t) : option V :=
  match d with
  | [] => None
  | (k', v) :: rest => if Product.eqb k' k then Some v else get rest k
  end.

(** [d.get(k, default)] *)
Definition get_default {V : Type} (d : t V) (k : Product.t) (default : V) : V :=
  match get d k with
  | Some v => v
  | None => default
  end.

(** [k in d] *)
Definition contains {V : Type} (d : t V) (k : Product.t) : bool :=
  match get d k with
  | Some _ => true
  | None => false
  end.

(** [d[k] = v]: an existing key keeps its position, a new key goes last. *)
Fixpoint set {V : Type} (d : t V) (k : Product.t) (v : V) : t V :=
  match d with
  | [] => [(k, v)]
  | (k', v') :: rest =>
      if Product.eqb k' k then (k', v) :: rest else (k', v') :: set rest k v
  end.

(** [d.items()] *)
Definition items {V : Type} (d : t V) : list (Product.t * V) := d.

Definition keys {V : Type} (d : t V) : list Product.t := map fst d.
End PyDict.

(** ** discount_calculator.py *)

Module DiscountCalculator.
Record t : Set := mk {
  product : Product.t;
  quantity : Z;
  unit_price : Q;
  offer : Offer.t
}.

Definition __init__ (product : Product.t) (quantity unit_price : Q)
    (offer : Offer.t) : result t :=
  if Qle_bool quantity 0 || Qlt_bool unit_price 0 then
    Raise (ValueError
      "Quantity must be positive and unit price cannot be negative.")
  else Ok (mk product (int quantity) unit_price offer).

Definition calculate_group_discount (product : Product.t) (quantity : Z)
    (unit_price : Q) (group_size : Z) (amount : Q)
    : result (option Discount.t) :=
  if (quantity >=? group_size)%Z then
    number_of_groups <- floordiv quantity group_size;;
    remainder <- pymod quantity group_size;;
    let total :=
      amount * inject_Z number_of_groups + inject_Z remainder * unit_price in
    let discount_amount := inject_Z quantity * unit_price - total in
    Ok (Some (Discount.mk product
                [IntField group_size; Lit " for "; NumField amount]
                (- discount_amount)))
  else Ok None.

Definition amount_discount (product : Product.t) (quantity : Z)
    (unit_price : Q) (group_size : Z) (amount : Q)
    : result (option Discount.t) :=
  if (quantity >=? group_size)%Z then
    number_of_groups <- floordiv quantity group_size;;
    remainder <- pymod quantity group_size;;
    let total :=
      amount * inject_Z number_of_groups + inject_Z remainder * unit_price in
    let discount_amount := inject_Z quantity * unit_price - total in
    Ok (Some (Discount.mk product
                [IntField group_size; Lit " for "; NumField amount]
                (- discount_amount)))
  else Ok None.

Definition three_for_two_discount (self : t) : result (option Discount.t) :=
  calculate_group_discount (product self) (quantity self) (unit_price self)
    3 (2 * unit_price self).

Definition two_for_amount_discount (self : t) : result (option Discount.t) :=
  amount_discount (product self) (quantity self) (unit_price self)
    2 (Offer.argument (offer self)).

Definition five_for_amount_discount (self : t) : result (option Discount.t) :=
  amount_discount (product self) (quantity self) (unit_price self)
    5 (Offer.argument (offer self)).

Definition ten_percent_discount (self : t) : result (option Discount.t) :=
  let argument := Offer.argument (offer self) in
  if negb (Qle_bool 0 argument && Qle_bool argument 100) then
    Raise (ValueError "Discount percentage must be between 0 and 100.")
  else
    let discount_amount :=
      inject_Z (- quantity self) * unit_price self * (argument / 100) in
    Ok (Some (Discount.mk (product self)
                [NumField argument; Lit "% off"] discount_amount)).

Definition calculate_discount (self : t) : result (option Discount.t) :=
  match Offer.offer_type (offer self) with
  | THREE_FOR_TWO => three_for_two_discount self
  | TWO_FOR_AMOUNT => two_for_amount_discount self
  | FIVE_FOR_AMOUNT => five_for_amount_discount self
  | TEN_PERCENT_DISCOUNT => ten_percent_discount self
  | OTHER repr => Raise (ValueError ("Unknown offer type: " ++ repr))
  end.
End DiscountCalculator.

(** ** receipt.py *)

Module ReceiptItem.
Record t : Set := mk {
  product : Product.t;
  quantity : Q;
  price : Q;
  total_price : Q
}.
End ReceiptItem.

Module Receipt.
Record t : Set := mk {
  _items : list ReceiptItem.t;
  _discounts : list Discount.t
}.

Definition __init__ : t := mk [] [].

Definition items (self : t) : list ReceiptItem.t := _items self.

Definition discounts (self : t) : list Discount.t := _discounts self.

Definition total_price (self : t) : Q :=
  let total_price := sum (map ReceiptItem.total_price (items self)) in
  let total_discounts := sum (map Discount.discount_amount (discounts self)) in
  let total := total_price + total_discounts in
  round total 2.

Definition add_product (self : t) (product : Product.t)
    (quantity price total_price : Q) : t :=
  mk (_items self ++ [ReceiptItem.mk product quantity price total_price])
     (_discounts self).

Definition add_discount (self : t) (discount : Discount.t) : t :=
  mk (_items self) (_discounts self ++ [discount]).
End Receipt.

(** ** catalog.py: the catalog is the caller's; a price lookup may raise. *)

Definition SupermarketCatalog : Type := Product.t -> result Q.

(** ** shopping_cart.py *)

Module ShoppingCart.
Record t : Type := mk {
  _items : list ProductQuantity.t;
  _product_quantities : PyDict.t Q
}.

Definition __init__ : t := mk [] PyDict.empty.

Definition items (self : t) : list ProductQuantity.t := _items self.

Definition product_quantities (self : t) : PyDict.t Q :=
  _product_quantities self.

Definition add_item_quantity (self : t) (product : Product.t) (quantity : Q)
    : t :=
  mk (_items self ++ [ProductQuantity.mk product quantity])
     (PyDict.set (_product_quantities self) product
        (PyDict.get_default (_product_quantities self) product 0 + quantity)).

Definition add_item (self : t) (product : Product.t) : t :=
  add_item_quantity self product 1.

(** The body of the loop of [handle_offers], over the entries that are left
    to visit.  [if discount:] tests for [None] only: a [Discount] defines
    neither [__bool__] nor [__len__], so a returned record is always added. *)
Fixpoint handle_offers_loop (entries : list (Product.t * Q))
    (receipt : Receipt.t) (offers : PyDict.t Offer.t)
    (catalog : SupermarketCatalog) : result Receipt.t :=
  match entries with
  | [] => Ok receipt
  | (product, quantity) :: rest =>
      if negb (PyDict.contains offers product) then
        handle_offers_loop rest receipt offers catalog
      else
        match PyDict.get offers product with
        | None => Raise (KeyError product)
        | Some offer =>
            unit_price <- catalog product;;
            discount_calculator <-
              DiscountCalculator.__init__ product quantity unit_price offer;;
            discount <-
              DiscountCalculator.calculate_discount discount_calculator;;
            match discount with
            | Some d =>
                handle_offers_loop rest (Receipt.add_discount receipt d)
                  offers catalog
            | None => handle_offers_loop rest receipt offers catalog
            end
        end
  end.

Definition handle_offers (self : t) (receipt : Receipt.t)
    (offers : PyDict.t Offer.t) (catalog : SupermarketCatalog)
    : result Receipt.t :=
  handle_offers_loop (PyDict.items (_product_quantities self))
    receipt offers catalog.
End ShoppingCart.

(** ** teller.py *)

Module Teller.
Record t : Type := mk {
  catalog : SupermarketCatalog;
  offers : PyDict.t Offer.t
}.

Definition __init__ (catalog : SupermarketCatalog) : t :=
  mk catalog PyDict.empty.

Definition add_special_offer (self : t) (offer_type : OfferType)
    (product : Product.t) (argument : Q) : t :=
  mk (catalog self)
     (PyDict.set (offers self) product (Offer.mk offer_type argument)).

Definition _calculate_total_price (quantity unit_price : Q) : Q :=
  quantity * unit_price.

Definition _process_item (self : t) (product : Product.t) (quantity : Q)
    (receipt : Receipt.t) : result Receipt.t :=
  unit_price <- catalog self product;;
  let total_price := _calculate_total_price quantity unit_price in
  Ok (Receipt.add_product receipt product quantity unit_price total_price).

Fixpoint _add_cart_items_loop (self : t) (items : list ProductQuantity.t)
    (receipt : Receipt.t) : result Receipt.t :=
  match items with
  | [] => Ok receipt
  | item :: rest =>
      receipt' <- _process_item self (ProductQuantity.product item)
                    (ProductQuantity.quantity item) receipt;;
      _add_cart_items_loop self rest receipt'
  end.

Definition _add_cart_items_to_receipt (self : t)
    (shopping_cart : ShoppingCart.t) (receipt : Receipt.t)
    : result Receipt.t :=
  _add_cart_items_loop self (ShoppingCart.items shopping_cart) receipt.

Definition _apply_offers (self : t) (shopping_cart : ShoppingCart.t)
    (receipt : Receipt.t) : result Receipt.t :=
  ShoppingCart.handle_offers shopping_cart receipt (offers self)
    (catalog self).

Definition checks_out_articles_from (self : t)
    (shopping_cart : ShoppingCart.t) : result Receipt.t :=
  let receipt := Receipt.__init__ in
  receipt <- _add_cart_items_to_receipt self shopping_cart receipt;;
  receipt <- _apply_offers self shopping_cart receipt;;
  Ok receipt.
End Teller.

(** * Specification *)

(** The discount engine as [handle_offers] calls it: the constructor, then
    [calculate_discount]. *)
Definition compute (product : Product.t) (total_quantity unit_price : Q)
    (offer : Offer.t) : result (option Discount.t) :=
  discount_calculator <-
    DiscountCalculator.__init__ product total_quantity unit_price offer;;
  DiscountCalculator.calculate_discount discount_calculator.

(** The amount of a group discount in the words of the specification:
    minus (full price minus payable), where
    payable = groups * bundle price + remainder * unit price. *)
Definition group_discount_amount (quantity : Z) (unit_price : Q)
    (group_size : Z) (bundle_price : Q) : Q :=
  let groups := (quantity / group_size)%Z in
  let remainder := (quantity mod group_size)%Z in
  let payable :=
    inject_Z groups * bundle_price + inject_Z remainder * unit_price in
  let full_price := inject_Z quantity * unit_price in
  - (full_price - payable).

Definition invalid_input_message : string :=
  "Quantity must be positive and unit price cannot be negative.".

Definition percentage_message : string :=
  "Discount percentage must be between 0 and 100.".

(** ** The group offers of the specification *)

Definition group_size_of (offer_type : OfferType) : option Z :=
  match offer_type with
  | THREE_FOR_TWO => Some 3%Z
  | TWO_FOR_AMOUNT => Some 2%Z
  | FIVE_FOR_AMOUNT => Some 5%Z
  | TEN_PERCENT_DISCOUNT | OTHER _ => None
  end.

Definition bundle_price_of (offer : Offer.t) (unit_price : Q) : Q :=
  match Offer.offer_type offer with
  | THREE_FOR_TWO => 2 * unit_price
  | _ => Offer.argument offer
  end.

(** ** The products and prices of the test-suite *)

Definition toothbrush : Product.t := Product.mk "toothbrush" EACH.
Definition rice : Product.t := Product.mk "rice" EACH.
Definition apples : Product.t := Product.mk "apples" KILO.
Definition cherry_tomatoes : Product.t := Product.mk "cherry tomato box" EACH.

Definition test_catalog : SupermarketCatalog := fun product =>
  if Product.eqb product toothbrush then Ok (99 # 100)
  else if Product.eqb product rice then Ok (299 # 100)
  else if Product.eqb product apples then Ok (199 # 100)
  else if Product.eqb product cherry_tomatoes then Ok (69 # 100)
  else Raise (KeyError product).

Definition kilo_cart : ShoppingCart.t :=
  ShoppingCart.add_item_quantity ShoppingCart.__init__ apples (5 # 2).

Definition percent_teller : Teller.t :=
  Teller.add_special_offer (Teller.__init__ test_catalog)
    TEN_PERCENT_DISCOUNT apples 10.

(** ** Carts built by additions *)

Inductive cart_op : Type :=
| AddItem (product : Product.t)
| AddItemQuantity (product : Product.t) (quantity : Q).

Definition apply_cart_op (cart : ShoppingCart.t) (op : cart_op)
    : ShoppingCart.t :=
  match op with
  | AddItem product => ShoppingCart.add_item cart product
  | AddItemQuantity product quantity =>
      ShoppingCart.add_item_quantity cart product quantity
  end.

(** The cart after a sequence of calls on a new cart. *)
Definition run_cart (ops : list cart_op) : ShoppingCart.t :=
  fold_left apply_cart_op ops ShoppingCart.__init__.

(** The entries of the history that are for [product], in order, and the sum
    of their quantities. *)
Definition entries_for (product : Product.t) (items : list ProductQuantity.t)
    : list ProductQuantity.t :=
  filter (fun e => Product.eqb (ProductQuantity.product e) product) items.

Definition total_quantity (product : Product.t)
    (items : list ProductQuantity.t) : Q :=
  sum (map ProductQuantity.quantity (entries_for product items)).

Definition cart_invariant (cart : ShoppingCart.t) : Prop :=
  (forall product quantity,
      PyDict.get (ShoppingCart.product_quantities cart) product
      = Some quantity ->
      quantity == total_quantity product (ShoppingCart.items cart))
  /\ (forall product,
        PyDict.contains (ShoppingCart.product_quantities cart) product = true
        <-> exists e, In e (ShoppingCart.items cart)
                      /\ ProductQuantity.product e = product)
  /\ NoDup (PyDict.keys (ShoppingCart.product_quantities cart)).

(** ** Receipts built by calls *)







(** ** Checkout *)

(** [line] is the receipt line of the cart entry [e]: same product and
    quantity, the catalog's unit price, and their product as total. *)
Definition receipt_line_of (catalog : SupermarketCatalog)
    (e : ProductQuantity.t) (line : ReceiptItem.t) : Prop :=
  ReceiptItem.product line = ProductQuantity.product e
  /\ ReceiptItem.quantity line = ProductQuantity.quantity e
  /\ catalog (ProductQuantity.product e) = Ok (ReceiptItem.price line)
  /\ ReceiptItem.total_price line
     = ProductQuantity.quantity e * ReceiptItem.price line.

(** [d] is what the engine returns for its product on one of [entries],
    with the registered offer and the catalog's unit price. *)
Definition discount_of (offers : PyDict.t Offer.t)
    (catalog : SupermarketCatalog) (entries : list (Product.t * Q))
    (d : Discount.t) : Prop :=
  exists quantity unit_price offer,
    In (Discount.product d, quantity) entries
    /\ PyDict.get offers (Discount.product d) = Some offer
    /\ catalog (Discount.product d) = Ok unit_price
    /\ compute (Discount.product d) quantity unit_price offer = Ok (Some d).

(** The engine returns (a discount or none) for the entry, if its product
    has an offer. *)
Definition offer_computes (offers : PyDict.t Offer.t)
    (catalog : SupermarketCatalog) (entry : Product.t * Q) : Prop :=
  forall offer,
    PyDict.get offers (fst entry) = Some offer ->
    exists unit_price r,
      catalog (fst entry) = Ok unit_price
      /\ compute (fst entry) (snd entry) unit_price offer = Ok r.

(** The history entry that an addition appends. *)
Definition cart_op_entry (op : cart_op) : ProductQuantity.t :=
  match op with
  | AddItem product => ProductQuantity.mk product 1
  | AddItemQuantity product quantity => ProductQuantity.mk product quantity
  end.

(** [d] is what the engine returns for its product on the merged quantity of
    the cart. *)
Definition discount_of_merged (teller : Teller.t) (cart : ShoppingCart.t)
    (d : Discount.t) : Prop :=
  exists quantity unit_price offer,
    PyDict.get (ShoppingCart.product_quantities cart) (Discount.product d)
    = Some quantity
    /\ quantity == total_quantity (Discount.product d) (ShoppingCart.items cart)
    /\ PyDict.get (Teller.offers teller) (Discount.product d) = Some offer
    /\ Teller.catalog teller (Discount.product d) = Ok unit_price
    /\ compute (Discount.product d) quantity unit_price offer = Ok (Some d).

Definition three_for_two_teller : Teller.t :=
  Teller.add_special_offer (Teller.__init__ test_catalog)
    THREE_FOR_TWO toothbrush (99 # 100).

Definition two_additions : list cart_op :=
  [AddItem toothbrush; AddItemQuantity toothbrush 2].

Definition returned_one : list cart_op :=
  [AddItemQuantity toothbrush 4; AddItemQuantity toothbrush (-1)].

Definition bad_percent_teller : Teller.t :=
  Teller.add_special_offer
    (Teller.add_special_offer (Teller.__init__ test_catalog)
       TEN_PERCENT_DISCOUNT rice 150)
    THREE_FOR_TWO toothbrush 0.

Definition rice_then_toothbrushes : list cart_op :=
  [AddItem rice; AddItemQuantity toothbrush 3].

(** ** The checkouts of the test-suite *)

Definition cart_of (product : Product.t) (quantity : Q) : ShoppingCart.t :=
  run_cart [AddItemQuantity product quantity].

Definition teller_with (offer_type : OfferType) (product : Product.t)
    (argument : Q) : Teller.t :=
  Teller.add_special_offer (Teller.__init__ test_catalog) offer_type product
    argument.

(** The total of a checkout, as the tests read it. *)
Definition checkout_total_price (teller : Teller.t) (cart : ShoppingCart.t)
    : result Q :=
  receipt <- Teller.checks_out_articles_from teller cart;;
  Ok (Receipt.total_price receipt).

(** ** receipt_printer.py: the line formatter *)

Definition newline : string := String (Ascii.ascii_of_nat 10) EmptyString.

(** The first [n] characters of [s], all of [s] when it is shorter. *)
Fixpoint take (n : nat) (s : string) : string :=
  match n, s with
  | O, _ => EmptyString
  | S _, EmptyString => EmptyString
  | S n', String c rest => String c (take n' rest)
  end.

(** [s[:stop]]: a negative [stop] counts from the end, and the slice is
    empty when it would start after its end. *)
Definition slice_to (s : string) (stop : Z) : string :=
  if (stop <? 0)%Z then take (String.length s - Z.to_nat (- stop)) s
  else take (Z.to_nat stop) s.

Fixpoint repeat_string (s : string) (n : nat) : string :=
  match n with
  | O => EmptyString
  | S n' => (s ++ repeat_string s n')%string
  end.

(** [s * n]: empty when [n <= 0]. *)
Definition str_mul (s : string) (n : Z) : string :=
  repeat_string s (Z.to_nat n).

Module ReceiptPrinter.
Record t : Set := mk { columns : Z }.

(** [columns] defaults to 40. *)
Definition __init__ (columns : option Z) : t :=
  mk (match columns with Some c => c | None => 40%Z end).

Definition format_line_with_whitespace (self : t) (name value : string)
    : string :=
  let total_length :=
    (Z.of_nat (String.length name) + Z.of_nat (String.length value))%Z in
  if (total_length >=? columns self)%Z then
    (slice_to name (columns self - Z.of_nat (String.length value) - 3)
     ++ "..." ++ value ++ newline)%string
  else
    let whitespace_size := (columns self - total_length)%Z in
    (name ++ str_mul " " whitespace_size ++ value ++ newline)%string.
End ReceiptPrinter.

(** ** The order of the keys of the merged map *)

(** The products of a list, each at its first occurrence. *)
Definition first_occurrences (products : list Product.t) : list Product.t :=
  fold_left
    (fun seen product =>
       if existsb (Product.eqb product) seen then seen else seen ++ [product])
    products [].

(** The discount that one entry of the merged map contributes: the engine's
    result for it when its product has an offer, the catalog prices it and
    the engine returns a discount. *)
Definition entry_discount (offers : PyDict.t Offer.t)
    (catalog : SupermarketCatalog) (entry : Product.t * Q)
    : list Discount.t :=
  match PyDict.get offers (fst entry) with
  | None => []
  | Some offer =>
      match catalog (fst entry) with
      | Raise _ => []
      | Ok unit_price =>
          match compute (fst entry) (snd entry) unit_price offer with
          | Ok (Some d) => [d]
          | _ => []
          end
      end
  end.

Definition unknown_product : Product.t := Product.mk "caviar" EACH.

(** * Proofs *)

Lemma Qlt_bool_iff (x y : Q) : Qlt_bool x y = true <-> x < y.
Proof.
  unfold Qlt_bool. rewrite negb_true_iff.
  split; intro H.
  - apply Qnot_le_lt. intro Hle. apply Qle_bool_iff in Hle. congruence.
  - destruct (Qle_bool y x) eqn:E; [|reflexivity].
    apply Qle_bool_iff in E. exfalso. apply (Qlt_not_le _ _ H E).
Qed.

Lemma Qlt_bool_false (x y : Q) : Qlt_bool x y = false <-> y <= x.
Proof.
  unfold Qlt_bool. rewrite negb_false_iff. apply Qle_bool_iff.
Qed.

Lemma Qle_bool_false (x y : Q) : Qle_bool x y = false <-> y < x.
Proof.
  rewrite <- Qlt_bool_iff. unfold Qlt_bool.
  destruct (Qle_bool x y); simpl; intuition congruence.
Qed.

Lemma geb_true (a b : Z) : (a >= b)%Z -> (a >=? b)%Z = true.
Proof. intro H. apply Z.geb_le. lia. Qed.

Lemma geb_false (a b : Z) : (a < b)%Z -> (a >=? b)%Z = false.
Proof.
  intro H. destruct (a >=? b)%Z eqn:E; [|reflexivity].
  apply Z.geb_le in E. lia.
Qed.

Lemma floordiv_ok (a b : Z) : b <> 0%Z -> floordiv a b = Ok (a / b)%Z.
Proof. intro H. unfold floordiv. apply Z.eqb_neq in H. now rewrite H. Qed.

Lemma pymod_ok (a b : Z) : b <> 0%Z -> pymod a b = Ok (a mod b)%Z.
Proof. intro H. unfold pymod. apply Z.eqb_neq in H. now rewrite H. Qed.

(** The two copies of the group rule are the same function. *)
Lemma calculate_group_discount_amount_discount product quantity unit_price
    group_size amount :
  DiscountCalculator.calculate_group_discount product quantity unit_price
    group_size amount
  = DiscountCalculator.amount_discount product quantity unit_price
      group_size amount.
Proof. reflexivity. Qed.

Lemma amount_discount_some product quantity unit_price group_size amount :
  group_size <> 0%Z -> (quantity >= group_size)%Z ->
  DiscountCalculator.amount_discount product quantity unit_price
    group_size amount
  = Ok (Some (Discount.mk product
                [IntField group_size; Lit " for "; NumField amount]
                (- (inject_Z quantity * unit_price
                    - (amount * inject_Z (quantity / group_size)
                       + inject_Z (quantity mod group_size) * unit_price))))).
Proof.
  intros Hg Hq. unfold DiscountCalculator.amount_discount.
  rewrite (geb_true _ _ Hq), (floordiv_ok _ _ Hg), (pymod_ok _ _ Hg).
  reflexivity.
Qed.

Lemma amount_discount_none product quantity unit_price group_size amount :
  (quantity < group_size)%Z ->
  DiscountCalculator.amount_discount product quantity unit_price
    group_size amount = Ok None.
Proof.
  intro Hq. unfold DiscountCalculator.amount_discount.
  now rewrite (geb_false _ _ Hq).
Qed.

Lemma group_amount_spec quantity unit_price group_size amount :
  - (inject_Z quantity * unit_price
     - (amount * inject_Z (quantity / group_size)
        + inject_Z (quantity mod group_size) * unit_price))
  == group_discount_amount quantity unit_price group_size amount.
Proof. unfold group_discount_amount. ring. Qed.

(** ** Truncation *)

Lemma int_nonneg_floor (x : Q) : 0 <= x -> int x = Qfloor x.
Proof.
  destruct x as [n d]. unfold Qle, int, Qfloor. simpl. intro H.
  apply Z.quot_div_nonneg; lia.
Qed.

Lemma int_inject_Z (z : Z) : int (inject_Z z) = z.
Proof. unfold int, inject_Z. simpl. apply Z.quot_1_r. Qed.

Lemma int_bounds (x : Q) :
  0 <= x -> inject_Z (int x) <= x /\ x < inject_Z (int x) + 1.
Proof.
  intro H. rewrite (int_nonneg_floor x H). split.
  - apply Qfloor_le.
  - pose proof (Qlt_floor x) as Hlt.
    rewrite inject_Z_plus in Hlt. exact Hlt.
Qed.

Lemma int_nonneg (x : Q) : 0 <= x -> (0 <= int x)%Z.
Proof.
  intro H. rewrite (int_nonneg_floor x H).
  change 0%Z with (Qfloor (inject_Z 0)). apply Qfloor_resp_le. exact H.
Qed.

Lemma int_ge (x : Q) (g : Z) :
  0 <= x -> inject_Z g <= x -> (int x >= g)%Z.
Proof.
  intros H0 H. rewrite (int_nonneg_floor x H0).
  rewrite <- (Qfloor_Z g). apply Z.le_ge, Qfloor_resp_le, H.
Qed.

Lemma int_lt (x : Q) (g : Z) :
  0 <= x -> x < inject_Z g -> (int x < g)%Z.
Proof.
  intros H0 H. rewrite Zlt_Qlt.
  apply Qle_lt_trans with x; [|exact H]. apply int_bounds, H0.
Qed.

(** ** The constructor's validation *)

Lemma init_ok product quantity unit_price offer :
  0 < quantity -> 0 <= unit_price ->
  DiscountCalculator.__init__ product quantity unit_price offer
  = Ok (DiscountCalculator.mk product (int quantity) unit_price offer).
Proof.
  intros Hq Hp. unfold DiscountCalculator.__init__.
  apply Qle_bool_false in Hq. apply Qlt_bool_false in Hp.
  now rewrite Hq, Hp.
Qed.

Lemma init_raise product quantity unit_price offer :
  quantity <= 0 \/ unit_price < 0 ->
  DiscountCalculator.__init__ product quantity unit_price offer
  = Raise (ValueError invalid_input_message).
Proof.
  intros [Hq | Hp]; unfold DiscountCalculator.__init__.
  - apply Qle_bool_iff in Hq. now rewrite Hq.
  - apply Qlt_bool_iff in Hp. rewrite Hp. now rewrite orb_true_r.
Qed.

Lemma init_cases (quantity unit_price : Q) :
  (0 < quantity /\ 0 <= unit_price) \/ (quantity <= 0 \/ unit_price < 0).
Proof.
  destruct (Qlt_le_dec 0 quantity) as [Hq | Hq]; [|now right; left].
  destruct (Qlt_le_dec unit_price 0) as [Hp | Hp]; [now right; right|].
  now left.
Qed.

Lemma compute_valid product quantity unit_price offer :
  0 < quantity -> 0 <= unit_price ->
  compute product quantity unit_price offer
  = DiscountCalculator.calculate_discount
      (DiscountCalculator.mk product (int quantity) unit_price offer).
Proof.
  intros Hq Hp. unfold compute. now rewrite (init_ok _ _ _ _ Hq Hp).
Qed.

Lemma compute_invalid product quantity unit_price offer :
  quantity <= 0 \/ unit_price < 0 ->
  compute product quantity unit_price offer
  = Raise (ValueError invalid_input_message).
Proof.
  intro H. unfold compute. now rewrite (init_raise _ _ _ _ H).
Qed.

Lemma calculate_discount_group self g :
  group_size_of (Offer.offer_type (DiscountCalculator.offer self)) = Some g ->
  DiscountCalculator.calculate_discount self
  = DiscountCalculator.amount_discount
      (DiscountCalculator.product self) (DiscountCalculator.quantity self)
      (DiscountCalculator.unit_price self) g
      (bundle_price_of (DiscountCalculator.offer self)
         (DiscountCalculator.unit_price self))
  /\ g <> 0%Z.
Proof.
  destruct self as [p q up [ot arg]]. unfold bundle_price_of.
  unfold DiscountCalculator.calculate_discount. simpl.
  destruct ot; simpl; intro H; inversion H; subst; split;
    try reflexivity; discriminate.
Qed.

Lemma handle_offers_loop_step product quantity rest receipt offers catalog
    offer unit_price :
  PyDict.get offers product = Some offer ->
  catalog product = Ok unit_price ->
  ShoppingCart.handle_offers_loop ((product, quantity) :: rest) receipt
    offers catalog
  = (discount <- compute product quantity unit_price offer;;
     match discount with
     | Some d =>
         ShoppingCart.handle_offers_loop rest (Receipt.add_discount receipt d)
           offers catalog
     | None => ShoppingCart.handle_offers_loop rest receipt offers catalog
     end).
Proof.
  intros Hoff Hcat. cbn [ShoppingCart.handle_offers_loop].
  unfold PyDict.contains. rewrite Hoff. cbn [negb].
  rewrite Hcat. unfold compute, bind.
  destruct (DiscountCalculator.__init__ product quantity unit_price offer);
    reflexivity.
Qed.

Lemma handle_offers_loop_skip product quantity rest receipt offers catalog :
  PyDict.get offers product = None ->
  ShoppingCart.handle_offers_loop ((product, quantity) :: rest) receipt
    offers catalog
  = ShoppingCart.handle_offers_loop rest receipt offers catalog.
Proof.
  intros Hoff. cbn [ShoppingCart.handle_offers_loop].
  unfold PyDict.contains. now rewrite Hoff.
Qed.

(** ** The percentage offer *)

Lemma percentage_check (argument : Q) :
  Qle_bool 0 argument && Qle_bool argument 100 = true
  <-> 0 <= argument /\ argument <= 100.
Proof. rewrite andb_true_iff, !Qle_bool_iff. reflexivity. Qed.

Lemma ten_percent_ok self :
  0 <= Offer.argument (DiscountCalculator.offer self)
  /\ Offer.argument (DiscountCalculator.offer self) <= 100 ->
  DiscountCalculator.ten_percent_discount self
  = Ok (Some (Discount.mk (DiscountCalculator.product self)
                [NumField (Offer.argument (DiscountCalculator.offer self));
                 Lit "% off"]
                (inject_Z (- DiscountCalculator.quantity self)
                 * DiscountCalculator.unit_price self
                 * (Offer.argument (DiscountCalculator.offer self) / 100)))).
Proof.
  intro H. apply percentage_check in H.
  unfold DiscountCalculator.ten_percent_discount. cbv zeta. now rewrite H.
Qed.

Lemma ten_percent_raise self :
  ~ (0 <= Offer.argument (DiscountCalculator.offer self)
     /\ Offer.argument (DiscountCalculator.offer self) <= 100) ->
  DiscountCalculator.ten_percent_discount self
  = Raise (ValueError percentage_message).
Proof.
  intro H. unfold DiscountCalculator.ten_percent_discount. cbv zeta.
  destruct (Qle_bool 0 _ && Qle_bool _ 100) eqn:E; [|reflexivity].
  apply percentage_check in E. contradiction.
Qed.

Lemma percentage_dec (argument : Q) :
  {0 <= argument /\ argument <= 100} + {~ (0 <= argument /\ argument <= 100)}.
Proof.
  destruct (Qle_bool 0 argument && Qle_bool argument 100) eqn:E.
  - left. now apply percentage_check.
  - right. intro H. apply percentage_check in H. congruence.
Qed.

Lemma ten_percent_amount_truncated product quantity unit_price argument :
  0 < quantity -> 0 <= unit_price ->
  0 <= argument /\ argument <= 100 ->
  exists d,
    compute product quantity unit_price
      (Offer.mk TEN_PERCENT_DISCOUNT argument) = Ok (Some d)
    /\ Discount.discount_amount d
       == - (inject_Z (int quantity) * unit_price * (argument / 100)).
Proof.
  intros Hq Hp Hin. rewrite (compute_valid _ _ _ _ Hq Hp).
  change (DiscountCalculator.calculate_discount ?c)
    with (DiscountCalculator.ten_percent_discount c).
  rewrite ten_percent_ok by exact Hin.
  eexists. split; [reflexivity|]. cbn. rewrite inject_Z_opp. ring.
Qed.

(** ** The sign of the amount *)

Lemma compute_some_inv product quantity unit_price offer r :
  compute product quantity unit_price offer = Ok r ->
  0 < quantity /\ 0 <= unit_price
  /\ DiscountCalculator.calculate_discount
       (DiscountCalculator.mk product (int quantity) unit_price offer) = Ok r.
Proof.
  intro H. destruct (init_cases quantity unit_price) as [[Hq Hp] | Hbad].
  - rewrite (compute_valid _ _ _ _ Hq Hp) in H. auto.
  - rewrite (compute_invalid _ _ _ _ Hbad) in H. discriminate.
Qed.




Lemma amount_discount_inv product quantity unit_price group_size amount d :
  (0 < group_size)%Z ->
  DiscountCalculator.amount_discount product quantity unit_price group_size
    amount = Ok (Some d) ->
  (quantity >= group_size)%Z
  /\ Discount.discount_amount d
     == group_discount_amount quantity unit_price group_size amount.
Proof.
  intros Hg H. destruct (Z_lt_ge_dec quantity group_size) as [Hlt | Hge].
  - rewrite (amount_discount_none _ _ _ _ _ Hlt) in H. discriminate.
  - rewrite amount_discount_some in H by lia. inversion H; subst.
    split; [exact Hge|]. apply group_amount_spec.
Qed.

Lemma group_size_of_pos offer_type g :
  group_size_of offer_type = Some g -> (0 < g)%Z.
Proof. destruct offer_type; simpl; intro H; inversion H; lia. Qed.

(** ** The dictionary *)

Lemma unit_eqb_eq (u v : ProductUnit) : Product.unit_eqb u v = true <-> u = v.
Proof. destruct u, v; simpl; split; congruence. Qed.

Lemma Product_eqb_eq (p q : Product.t) : Product.eqb p q = true <-> p = q.
Proof.
  destruct p as [n u], q as [m v]. unfold Product.eqb. simpl.
  rewrite andb_true_iff, String.eqb_eq, unit_eqb_eq.
  split; [intros [-> ->]; reflexivity | intro H; inversion H; auto].
Qed.

Lemma Product_eqb_refl (p : Product.t) : Product.eqb p p = true.
Proof. now apply Product_eqb_eq. Qed.

Lemma Product_eqb_neq (p q : Product.t) : Product.eqb p q = false <-> p <> q.
Proof.
  rewrite <- Product_eqb_eq. destruct (Product.eqb p q); split; congruence.
Qed.

Lemma get_set {V : Type} (d : PyDict.t V) (k k' : Product.t) (v : V) :
  PyDict.get (PyDict.set d k v) k'
  = if Product.eqb k k' then Some v else PyDict.get d k'.
Proof.
  induction d as [|[k1 v1] rest IH]; simpl.
  - reflexivity.
  - destruct (Product.eqb k1 k) eqn:E1; simpl.
    + apply Product_eqb_eq in E1. subst k1.
      destruct (Product.eqb k k'); reflexivity.
    + destruct (Product.eqb k1 k') eqn:E2.
      * apply Product_eqb_eq in E2. subst k'.
        destruct (Product.eqb k k1) eqn:E3; [|reflexivity].
        apply Product_eqb_eq in E3. subst k1.
        rewrite Product_eqb_refl in E1. discriminate.
      * exact IH.
Qed.

Lemma contains_set {V : Type} (d : PyDict.t V) (k k' : Product.t) (v : V) :
  PyDict.contains (PyDict.set d k v) k'
  = Product.eqb k k' || PyDict.contains d k'.
Proof.
  unfold PyDict.contains. rewrite get_set.
  destruct (Product.eqb k k'); reflexivity.
Qed.

Lemma contains_keys {V : Type} (d : PyDict.t V) (k : Product.t) :
  PyDict.contains d k = true <-> In k (PyDict.keys d).
Proof.
  unfold PyDict.contains, PyDict.keys.
  induction d as [|[k1 v1] rest IH]; simpl.
  - split; [discriminate | contradiction].
  - destruct (Product.eqb k1 k) eqn:E.
    + apply Product_eqb_eq in E. split; auto.
    + apply Product_eqb_neq in E. rewrite IH. split; [auto|].
      intros [H | H]; [contradiction | exact H].
Qed.

Lemma keys_set {V : Type} (d : PyDict.t V) (k : Product.t) (v : V) :
  PyDict.keys (PyDict.set d k v)
  = if PyDict.contains d k then PyDict.keys d else PyDict.keys d ++ [k].
Proof.
  unfold PyDict.contains, PyDict.keys.
  induction d as [|[k1 v1] rest IH]; simpl.
  - reflexivity.
  - destruct (Product.eqb k1 k) eqn:E; simpl.
    + reflexivity.
    + rewrite IH. destruct (PyDict.get rest k); reflexivity.
Qed.

Lemma NoDup_snoc {A : Type} (l : list A) (a : A) :
  NoDup l -> ~ In a l -> NoDup (l ++ [a]).
Proof.
  intros Hl Ha. induction Hl as [|x l Hx Hl IH]; simpl.
  - constructor; [intros [] | constructor].
  - constructor.
    + rewrite in_app_iff. simpl. intros [H | [H | []]].
      * contradiction.
      * subst. apply Ha. now left.
    + apply IH. intro H. apply Ha. now right.
Qed.

Lemma keys_set_NoDup {V : Type} (d : PyDict.t V) (k : Product.t) (v : V) :
  NoDup (PyDict.keys d) -> NoDup (PyDict.keys (PyDict.set d k v)).
Proof.
  intro H. rewrite keys_set. destruct (PyDict.contains d k) eqn:E.
  - exact H.
  - apply NoDup_snoc; [exact H|]. rewrite <- contains_keys. congruence.
Qed.

(** ** The cart *)

Lemma sum_snoc (xs : list Q) (x : Q) : sum (xs ++ [x]) = sum xs + x.
Proof. unfold sum. now rewrite fold_left_app. Qed.

Lemma entries_for_snoc product items e :
  entries_for product (items ++ [e])
  = entries_for product items
    ++ (if Product.eqb (ProductQuantity.product e) product then [e] else []).
Proof. unfold entries_for. rewrite filter_app. reflexivity. Qed.

Lemma entries_for_nil_iff product items :
  entries_for product items = []
  <-> ~ exists e, In e items /\ ProductQuantity.product e = product.
Proof.
  unfold entries_for. split.
  - intros H [e [Hin He]].
    assert (Hf : In e (filter (fun e => Product.eqb (ProductQuantity.product e)
                                          product) items)).
    { apply filter_In. split; [exact Hin | now apply Product_eqb_eq]. }
    rewrite H in Hf. contradiction.
  - intro H.
    destruct (filter _ items) as [|e l] eqn:E; [reflexivity|]. exfalso.
    assert (Hf : In e (filter (fun e => Product.eqb (ProductQuantity.product e)
                                          product) items))
      by (rewrite E; now left).
    apply filter_In in Hf. destruct Hf as [Hin He].
    apply H. exists e. split; [exact Hin | now apply Product_eqb_eq].
Qed.

Lemma total_quantity_snoc product items e :
  total_quantity product (items ++ [e])
  == if Product.eqb (ProductQuantity.product e) product
     then total_quantity product items + ProductQuantity.quantity e
     else total_quantity product items.
Proof.
  unfold total_quantity. rewrite entries_for_snoc.
  destruct (Product.eqb (ProductQuantity.product e) product).
  - rewrite map_app. cbn [map]. rewrite sum_snoc. reflexivity.
  - rewrite app_nil_r. reflexivity.
Qed.

Lemma cart_invariant_init : cart_invariant ShoppingCart.__init__.
Proof.
  split; [|split].
  - intros product quantity H. discriminate.
  - intro product. split; [discriminate | intros [e [[] _]]].
  - constructor.
Qed.

Lemma cart_invariant_add_item_quantity cart product quantity :
  cart_invariant cart ->
  cart_invariant (ShoppingCart.add_item_quantity cart product quantity).
Proof.
  intros [Hsum [Hin Hnd]]. destruct cart as [items merged].
  unfold cart_invariant, ShoppingCart.add_item_quantity,
    ShoppingCart.product_quantities, ShoppingCart.items in *.
  cbn [ShoppingCart._items ShoppingCart._product_quantities] in *.
  split; [|split].
  - intros p q Hget. rewrite get_set in Hget.
    rewrite total_quantity_snoc.
    cbn [ProductQuantity.product ProductQuantity.quantity].
    destruct (Product.eqb product p) eqn:E.
    + apply Product_eqb_eq in E. subst p. inversion Hget; subst q. clear Hget.
      unfold PyDict.get_default.
      destruct (PyDict.get merged product) as [q0|] eqn:G.
      * rewrite (Hsum _ _ G). reflexivity.
      * assert (Hnone : entries_for product items = []).
        { apply entries_for_nil_iff. intro Hex. apply Hin in Hex.
          unfold PyDict.contains in Hex. rewrite G in Hex. discriminate. }
        unfold total_quantity. rewrite Hnone. reflexivity.
    + apply Hsum, Hget.
  - intro p. rewrite contains_set, orb_true_iff, Hin, Product_eqb_eq.
    split.
    + intros [<- | [e [He Hp]]].
      * eexists. split; [apply in_or_app; right; now left | reflexivity].
      * exists e. split; [apply in_or_app; now left | exact Hp].
    + intros [e [He Hp]]. apply in_app_or in He.
      destruct He as [He | [<- | []]].
      * right. exists e. split; assumption.
      * left. exact Hp.
  - apply keys_set_NoDup, Hnd.
Qed.

Lemma cart_invariant_add_item cart product :
  cart_invariant cart -> cart_invariant (ShoppingCart.add_item cart product).
Proof. apply cart_invariant_add_item_quantity. Qed.

Lemma run_cart_snoc ops op :
  run_cart (ops ++ [op]) = apply_cart_op (run_cart ops) op.
Proof. unfold run_cart. now rewrite fold_left_app. Qed.

Lemma cart_invariant_run ops : cart_invariant (run_cart ops).
Proof.
  induction ops as [|op ops IH] using rev_ind.
  - apply cart_invariant_init.
  - rewrite run_cart_snoc. destruct op; simpl.
    + apply cart_invariant_add_item, IH.
    + apply cart_invariant_add_item_quantity, IH.
Qed.

(** ** The receipt *)










(** ** The two loops of the checkout *)

Lemma compute_product product quantity unit_price offer d :
  compute product quantity unit_price offer = Ok (Some d) ->
  Discount.product d = product.
Proof.
  intro H. apply compute_some_inv in H. destruct H as [_ [_ H]].
  destruct offer as [ot arg].
  unfold DiscountCalculator.calculate_discount in H. cbn in H.
  destruct ot.
  - unfold DiscountCalculator.three_for_two_discount,
      DiscountCalculator.calculate_group_discount in H. cbn in H.
    destruct (int quantity >=? 3)%Z; inversion H; reflexivity.
  - unfold DiscountCalculator.ten_percent_discount in H. cbn in H.
    destruct (negb _); inversion H; reflexivity.
  - unfold DiscountCalculator.two_for_amount_discount,
      DiscountCalculator.amount_discount in H. cbn in H.
    destruct (int quantity >=? 2)%Z; inversion H; reflexivity.
  - unfold DiscountCalculator.five_for_amount_discount,
      DiscountCalculator.amount_discount in H. cbn in H.
    destruct (int quantity >=? 5)%Z; inversion H; reflexivity.
  - discriminate.
Qed.

Lemma add_cart_items_loop_inv teller items receipt receipt' :
  Teller._add_cart_items_loop teller items receipt = Ok receipt' ->
  exists lines,
    Receipt._items receipt' = Receipt._items receipt ++ lines
    /\ Receipt._discounts receipt' = Receipt._discounts receipt
    /\ Forall2 (receipt_line_of (Teller.catalog teller)) items lines.
Proof.
  revert receipt. induction items as [|e items IH]; intros receipt H.
  - inversion H; subst. exists []. rewrite app_nil_r. repeat split.
    constructor.
  - cbn [Teller._add_cart_items_loop] in H.
    unfold Teller._process_item in H.
    destruct (Teller.catalog teller (ProductQuantity.product e))
      as [up|err] eqn:Hcat; [|discriminate].
    cbn [bind] in H. apply IH in H. destruct H as [lines [Hi [Hd Hl]]].
    cbn [Receipt.add_product Receipt._items Receipt._discounts] in Hi, Hd.
    eexists (_ :: lines). split; [|split].
    + rewrite Hi, <- app_assoc. reflexivity.
    + exact Hd.
    + constructor; [|exact Hl].
      unfold receipt_line_of. cbn. repeat split. exact Hcat.
Qed.

Lemma add_cart_items_loop_total teller items receipt :
  Forall (fun e => exists unit_price,
            Teller.catalog teller (ProductQuantity.product e) = Ok unit_price)
    items ->
  exists receipt',
    Teller._add_cart_items_loop teller items receipt = Ok receipt'.
Proof.
  intro H. revert receipt. induction H as [|e items [up Hup] _ IH];
    intro receipt.
  - eexists. reflexivity.
  - cbn [Teller._add_cart_items_loop]. unfold Teller._process_item.
    rewrite Hup. cbn [bind]. apply IH.
Qed.

Lemma handle_offers_loop_app entries entries' receipt offers catalog :
  ShoppingCart.handle_offers_loop (entries ++ entries') receipt offers catalog
  = (receipt' <- ShoppingCart.handle_offers_loop entries receipt offers
                   catalog;;
     ShoppingCart.handle_offers_loop entries' receipt' offers catalog).
Proof.
  revert receipt. induction entries as [|[p q] entries IH]; intro receipt.
  - reflexivity.
  - rewrite <- app_comm_cons.
    destruct (PyDict.get offers p) as [offer|] eqn:Hoff.
    + destruct (catalog p) as [up|err] eqn:Hcat.
      * rewrite !(handle_offers_loop_step _ _ _ _ _ _ _ _ Hoff Hcat).
        destruct (compute p q up offer) as [[d|]|err]; cbn [bind];
          [apply IH | apply IH | reflexivity].
      * cbn [ShoppingCart.handle_offers_loop]. unfold PyDict.contains.
        rewrite Hoff, Hcat. reflexivity.
    + rewrite !(handle_offers_loop_skip _ _ _ _ _ _ Hoff). apply IH.
Qed.

Lemma handle_offers_loop_raise product quantity rest receipt offers catalog
    offer :
  PyDict.get offers product = Some offer ->
  (forall unit_price r,
      catalog product = Ok unit_price ->
      compute product quantity unit_price offer <> Ok r) ->
  exists e,
    ShoppingCart.handle_offers_loop ((product, quantity) :: rest) receipt
      offers catalog = Raise e.
Proof.
  intros Hoff Hbad. destruct (catalog product) as [up|err] eqn:Hcat.
  - rewrite (handle_offers_loop_step _ _ _ _ _ _ _ _ Hoff Hcat).
    destruct (compute product quantity up offer) as [r|err] eqn:Hc.
    + exfalso. exact (Hbad up r eq_refl Hc).
    + eexists. reflexivity.
  - cbn [ShoppingCart.handle_offers_loop]. unfold PyDict.contains.
    rewrite Hoff, Hcat. eexists. reflexivity.
Qed.

Lemma handle_offers_loop_inv entries receipt receipt' offers catalog :
  ShoppingCart.handle_offers_loop entries receipt offers catalog
  = Ok receipt' ->
  Receipt._items receipt' = Receipt._items receipt
  /\ (exists ds,
        Receipt._discounts receipt' = Receipt._discounts receipt ++ ds
        /\ Forall (discount_of offers catalog entries) ds)
  /\ Forall (offer_computes offers catalog) entries.
Proof.
  revert receipt. induction entries as [|[p q] entries IH]; intros receipt H.
  - inversion H; subst. split; [reflexivity|]. split; [|constructor].
    exists []. rewrite app_nil_r. split; [reflexivity | constructor].
  - assert (Hweak : forall ds,
              Forall (discount_of offers catalog entries) ds ->
              Forall (discount_of offers catalog ((p, q) :: entries)) ds).
    { intros ds Hds. eapply Forall_impl; [|exact Hds].
      intros d [q' [up' [o' [Hin Hrest]]]].
      exists q', up', o'. split; [now right | exact Hrest]. }
    destruct (PyDict.get offers p) as [offer|] eqn:Hoff.
    + destruct (catalog p) as [up|err] eqn:Hcat.
      * rewrite (handle_offers_loop_step _ _ _ _ _ _ _ _ Hoff Hcat) in H.
        destruct (compute p q up offer) as [[d|]|err] eqn:Hc; cbn [bind] in H;
          [| |discriminate];
          apply IH in H; destruct H as [Hi [[ds [Hd Hds]] Hall]].
        -- cbn [Receipt.add_discount Receipt._items Receipt._discounts]
             in Hi, Hd.
           split; [exact Hi|]. split.
           ++ exists (d :: ds). split.
              ** rewrite Hd, <- app_assoc. reflexivity.
              ** constructor; [|apply Hweak, Hds].
                 pose proof (compute_product _ _ _ _ _ Hc) as Hp.
                 exists q, up, offer. rewrite Hp.
                 split; [now left | auto].
           ++ constructor; [|exact Hall].
              intros offer' Hoff'. cbn in Hoff'. rewrite Hoff in Hoff'.
              inversion Hoff'; subst offer'. exists up, (Some d). cbn. auto.
        -- split; [exact Hi|]. split.
           ++ exists ds. split; [exact Hd | apply Hweak, Hds].
           ++ constructor; [|exact Hall].
              intros offer' Hoff'. cbn in Hoff'. rewrite Hoff in Hoff'.
              inversion Hoff'; subst offer'. exists up, None. cbn. auto.
      * cbn [ShoppingCart.handle_offers_loop] in H.
        unfold PyDict.contains in H. rewrite Hoff, Hcat in H. discriminate.
    + rewrite (handle_offers_loop_skip _ _ _ _ _ _ Hoff) in H.
      apply IH in H. destruct H as [Hi [[ds [Hd Hds]] Hall]].
      split; [exact Hi|]. split.
      * exists ds. split; [exact Hd | apply Hweak, Hds].
      * constructor; [|exact Hall].
        intros offer' Hoff'. cbn in Hoff'. rewrite Hoff in Hoff'. discriminate.
Qed.

Lemma handle_offers_loop_total entries receipt offers catalog :
  Forall (offer_computes offers catalog) entries ->
  exists receipt',
    ShoppingCart.handle_offers_loop entries receipt offers catalog
    = Ok receipt'.
Proof.
  intro H. revert receipt. induction H as [|[p q] entries Hpq _ IH];
    intro receipt.
  - eexists. reflexivity.
  - destruct (PyDict.get offers p) as [offer|] eqn:Hoff.
    + destruct (Hpq offer Hoff) as [up [r [Hcat Hc]]]. cbn in Hcat, Hc.
      rewrite (handle_offers_loop_step _ _ _ _ _ _ _ _ Hoff Hcat), Hc.
      cbn [bind]. destruct r; apply IH.
    + rewrite (handle_offers_loop_skip _ _ _ _ _ _ Hoff). apply IH.
Qed.

Lemma handle_offers_loop_exact entries receipt receipt' offers catalog :
  ShoppingCart.handle_offers_loop entries receipt offers catalog
  = Ok receipt' ->
  receipt'
  = Receipt.mk (Receipt._items receipt)
      (Receipt._discounts receipt
       ++ flat_map (entry_discount offers catalog) entries).
Proof.
  revert receipt. induction entries as [|[p q] entries IH]; intros receipt H.
  - inversion H; subst. cbn. rewrite app_nil_r. now destruct receipt'.
  - cbn [flat_map]. unfold entry_discount at 1. cbn [fst snd].
    destruct (PyDict.get offers p) as [offer|] eqn:Hoff.
    + destruct (catalog p) as [up|err] eqn:Hcat.
      * rewrite (handle_offers_loop_step _ _ _ _ _ _ _ _ Hoff Hcat) in H.
        destruct (compute p q up offer) as [[d|]|err]; cbn [bind] in H;
          [| |discriminate]; apply IH in H; rewrite H.
        -- cbn [Receipt.add_discount Receipt._items Receipt._discounts].
           now rewrite <- app_assoc.
        -- reflexivity.
      * cbn [ShoppingCart.handle_offers_loop] in H.
        unfold PyDict.contains in H. rewrite Hoff, Hcat in H. discriminate.
    + rewrite (handle_offers_loop_skip _ _ _ _ _ _ Hoff) in H.
      apply IH in H. rewrite H. reflexivity.
Qed.

Lemma get_of_In {V : Type} (d : PyDict.t V) (k : Product.t) (v : V) :
  NoDup (PyDict.keys d) -> In (k, v) d -> PyDict.get d k = Some v.
Proof.
  unfold PyDict.keys. induction d as [|[k1 v1] rest IH]; simpl; intros Hnd Hin.
  - contradiction.
  - inversion Hnd as [|? ? Hk1 Hrest]; subst.
    destruct Hin as [Heq | Hin].
    + inversion Heq; subst. now rewrite Product_eqb_refl.
    + destruct (Product.eqb k1 k) eqn:E.
      * apply Product_eqb_eq in E. subst k1. exfalso. apply Hk1.
        apply in_map_iff. exists (k, v). auto.
      * apply IH; assumption.
Qed.

Lemma In_of_get {V : Type} (d : PyDict.t V) (k : Product.t) (v : V) :
  PyDict.get d k = Some v -> In (k, v) d.
Proof.
  induction d as [|[k1 v1] rest IH]; simpl; intro H.
  - discriminate.
  - destruct (Product.eqb k1 k) eqn:E.
    + apply Product_eqb_eq in E. inversion H; subst. now left.
    + right. apply IH, H.
Qed.

(** ** Checkout *)

Lemma checkout_inv teller cart receipt :
  Teller.checks_out_articles_from teller cart = Ok receipt ->
  Forall2 (receipt_line_of (Teller.catalog teller))
    (ShoppingCart.items cart) (Receipt.items receipt)
  /\ Forall (discount_of (Teller.offers teller) (Teller.catalog teller)
               (PyDict.items (ShoppingCart.product_quantities cart)))
       (Receipt.discounts receipt)
  /\ Forall (offer_computes (Teller.offers teller) (Teller.catalog teller))
       (PyDict.items (ShoppingCart.product_quantities cart)).
Proof.
  unfold Teller.checks_out_articles_from, Teller._add_cart_items_to_receipt,
    Teller._apply_offers, ShoppingCart.handle_offers. cbv zeta.
  intro H.
  destruct (Teller._add_cart_items_loop teller (ShoppingCart.items cart)
              Receipt.__init__) as [r1|err] eqn:H1; [|discriminate].
  cbn [bind] in H.
  destruct (ShoppingCart.handle_offers_loop _ r1 _ _) as [r2|err] eqn:H2;
    [|discriminate].
  cbn [bind] in H. inversion H; subst r2. clear H.
  apply add_cart_items_loop_inv in H1. destruct H1 as [lines [Hi [Hd Hl]]].
  apply handle_offers_loop_inv in H2.
  destruct H2 as [Hi2 [[ds [Hd2 Hds]] Hall]].
  cbn in Hi, Hd. unfold Receipt.items, Receipt.discounts.
  rewrite Hi2, Hi, Hd2, Hd. cbn. auto.
Qed.

Lemma checkout_total teller cart :
  Forall (fun e => exists unit_price,
            Teller.catalog teller (ProductQuantity.product e) = Ok unit_price)
    (ShoppingCart.items cart) ->
  Forall (offer_computes (Teller.offers teller) (Teller.catalog teller))
    (PyDict.items (ShoppingCart.product_quantities cart)) ->
  exists receipt, Teller.checks_out_articles_from teller cart = Ok receipt.
Proof.
  intros Hitems Hoffers.
  unfold Teller.checks_out_articles_from, Teller._add_cart_items_to_receipt,
    Teller._apply_offers, ShoppingCart.handle_offers. cbv zeta.
  destruct (add_cart_items_loop_total teller _ Receipt.__init__ Hitems)
    as [r1 H1].
  rewrite H1. cbn [bind].
  destruct (handle_offers_loop_total _ r1 _ _ Hoffers) as [r2 H2].
  unfold ShoppingCart.product_quantities in H2.
  rewrite H2. cbn [bind]. eexists. reflexivity.
Qed.

Lemma checkout_raise teller cart product quantity offer :
  In (product, quantity)
     (PyDict.items (ShoppingCart.product_quantities cart)) ->
  PyDict.get (Teller.offers teller) product = Some offer ->
  (forall unit_price r,
      Teller.catalog teller product = Ok unit_price ->
      compute product quantity unit_price offer <> Ok r) ->
  exists e, Teller.checks_out_articles_from teller cart = Raise e.
Proof.
  intros Hin Hoff Hbad.
  destruct (Teller.checks_out_articles_from teller cart) as [receipt|e] eqn:H;
    [|eexists; reflexivity].
  exfalso. apply checkout_inv in H. destruct H as [_ [_ Hall]].
  rewrite Forall_forall in Hall. specialize (Hall _ Hin offer Hoff).
  destruct Hall as [up [r [Hcat Hc]]]. exact (Hbad up r Hcat Hc).
Qed.

Lemma checkout_discounts_exact teller cart receipt :
  Teller.checks_out_articles_from teller cart = Ok receipt ->
  Receipt.discounts receipt
  = flat_map (entry_discount (Teller.offers teller) (Teller.catalog teller))
      (PyDict.items (ShoppingCart.product_quantities cart)).
Proof.
  unfold Teller.checks_out_articles_from, Teller._add_cart_items_to_receipt,
    Teller._apply_offers, ShoppingCart.handle_offers. cbv zeta. intro H.
  destruct (Teller._add_cart_items_loop teller (ShoppingCart.items cart)
              Receipt.__init__) as [r1|err] eqn:H1; [|discriminate].
  cbn [bind] in H.
  destruct (ShoppingCart.handle_offers_loop _ r1 _ _) as [r2|err] eqn:H2;
    [|discriminate].
  cbn [bind] in H. inversion H; subst r2.
  apply add_cart_items_loop_inv in H1. destruct H1 as [_ [_ [Hd _]]].
  apply handle_offers_loop_exact in H2. rewrite H2.
  unfold Receipt.discounts. cbn [Receipt._discounts]. rewrite Hd.
  reflexivity.
Qed.

Lemma run_cart_items ops :
  ShoppingCart.items (run_cart ops) = map cart_op_entry ops.
Proof.
  induction ops as [|op ops IH] using rev_ind.
  - reflexivity.
  - rewrite run_cart_snoc, map_app. unfold ShoppingCart.items in *.
    destruct op; cbn; now rewrite IH.
Qed.

(** ** The test-suite, replayed on the embedding *)

Example test_an_empty_shopping_cart_should_cost_nothing :
  checkout_total_price (Teller.__init__ test_catalog) (run_cart [])
  = Ok (0 / 100).
Proof. reflexivity. Qed.

Example test_two_normal_items :
  checkout_total_price (Teller.__init__ test_catalog)
    (run_cart [AddItem toothbrush; AddItem rice])
  = Ok (398 / 100).
Proof. reflexivity. Qed.

Example test_buy_two_get_one_free :
  checkout_total_price (teller_with THREE_FOR_TWO toothbrush (99 # 100))
    (cart_of toothbrush 2)
  = Ok (198 / 100).
Proof. reflexivity. Qed.

Example test_buy_five_get_one_free :
  checkout_total_price (teller_with THREE_FOR_TWO toothbrush (99 # 100))
    (cart_of toothbrush 5)
  = Ok (396 / 100).
Proof. reflexivity. Qed.

Example test_percent_discount :
  checkout_total_price (teller_with TEN_PERCENT_DISCOUNT rice 10)
    (run_cart [AddItem rice])
  = Ok (269 / 100).
Proof. reflexivity. Qed.

Example test_x_for_y_discount :
  checkout_total_price (teller_with TWO_FOR_AMOUNT cherry_tomatoes (99 # 100))
    (cart_of cherry_tomatoes 2)
  = Ok (99 / 100).
Proof. reflexivity. Qed.

Example test_five_for_y_discount_with_six :
  checkout_total_price (teller_with FIVE_FOR_AMOUNT apples (599 # 100))
    (cart_of apples 6)
  = Ok (798 / 100).
Proof. reflexivity. Qed.

Example test_five_for_y_discount_with_sixteen :
  checkout_total_price (teller_with FIVE_FOR_AMOUNT apples (799 # 100))
    (cart_of apples 16)
  = Ok (2596 / 100).
Proof. reflexivity. Qed.

Example test_five_for_y_discount_with_four :
  checkout_total_price (teller_with FIVE_FOR_AMOUNT apples (699 # 100))
    (cart_of apples 4)
  = Ok (796 / 100).
Proof. reflexivity. Qed.

Example test_unknown_offer_type_raises_value_error :
  compute toothbrush 1 1 (Offer.mk (OTHER "UnknownOfferType.UNKNOWN") 0)
  = Raise (ValueError "Unknown offer type: UnknownOfferType.UNKNOWN").
Proof. reflexivity. Qed.

(** * The claims *)

(** C1: for a quantity that reaches the group size, both copies of the group
    rule return a discount whose amount is
    -(quantity*unit_price - (floor(quantity/group_size)*bundle
                             + (quantity mod group_size)*unit_price));
    THREE_FOR_TWO uses it with group 3 and bundle 2*unit_price,
    TWO_FOR_AMOUNT with group 2 and FIVE_FOR_AMOUNT with group 5 and the
    offer's argument; for FIVE_FOR_AMOUNT with quantity 16, unit price p and
    argument a the amount is -(16p - (3a + p)). *)
Theorem C1_group_discount_amount :
  forall (product : Product.t) (quantity : Z) (unit_price : Q)
         (group_size : Z) (amount : Q),
    group_size <> 0%Z ->
    (quantity >= group_size)%Z ->
    (exists d,
        DiscountCalculator.calculate_group_discount product quantity
          unit_price group_size amount = Ok (Some d)
        /\ Discount.product d = product
        /\ Discount.discount_amount d
           == group_discount_amount quantity unit_price group_size amount)
    /\ (exists d,
        DiscountCalculator.amount_discount product quantity unit_price
          group_size amount = Ok (Some d)
        /\ Discount.product d = product
        /\ Discount.discount_amount d
           == group_discount_amount quantity unit_price group_size amount)
    /\ (group_size = 3%Z ->
        exists d,
          DiscountCalculator.calculate_discount
            (DiscountCalculator.mk product quantity unit_price
               (Offer.mk THREE_FOR_TWO amount)) = Ok (Some d)
          /\ Discount.discount_amount d
             == group_discount_amount quantity unit_price 3 (2 * unit_price))
    /\ (group_size = 2%Z ->
        exists d,
          DiscountCalculator.calculate_discount
            (DiscountCalculator.mk product quantity unit_price
               (Offer.mk TWO_FOR_AMOUNT amount)) = Ok (Some d)
          /\ Discount.discount_amount d
             == group_discount_amount quantity unit_price 2 amount)
    /\ (group_size = 5%Z ->
        exists d,
          DiscountCalculator.calculate_discount
            (DiscountCalculator.mk product quantity unit_price
               (Offer.mk FIVE_FOR_AMOUNT amount)) = Ok (Some d)
          /\ Discount.discount_amount d
             == group_discount_amount quantity unit_price 5 amount)
    /\ (exists d,
          compute product 16 unit_price (Offer.mk FIVE_FOR_AMOUNT amount)
          = (if Qlt_bool unit_price 0
             then Raise (ValueError
               "Quantity must be positive and unit price cannot be negative.")
             else Ok (Some d))
          /\ Discount.discount_amount d
             == - (16 * unit_price - (3 * amount + unit_price))).
Proof.
  intros product quantity unit_price group_size amount Hg Hq.
  assert (Hgen : forall g a, g <> 0%Z -> (quantity >= g)%Z ->
            exists d,
              DiscountCalculator.amount_discount product quantity unit_price
                g a = Ok (Some d)
              /\ Discount.product d = product
              /\ Discount.discount_amount d
                 == group_discount_amount quantity unit_price g a).
  { intros g a Hg' Hq'. eexists.
    split; [apply amount_discount_some; assumption|].
    split; [reflexivity|]. simpl. apply group_amount_spec. }
  repeat split.
  - rewrite calculate_group_discount_amount_discount. apply Hgen; assumption.
  - apply Hgen; assumption.
  - intros ->.
    destruct (Hgen 3%Z (2 * unit_price)) as [d [H1 [_ H2]]]; [lia|assumption|].
    exists d. split; assumption.
  - intros ->.
    destruct (Hgen 2%Z amount) as [d [H1 [_ H2]]]; [lia|assumption|].
    exists d. split; assumption.
  - intros ->.
    destruct (Hgen 5%Z amount) as [d [H1 [_ H2]]]; [lia|assumption|].
    exists d. split; assumption.
  - exists (Discount.mk product
              [IntField 5; Lit " for "; NumField amount]
              (- (inject_Z 16 * unit_price
                  - (amount * inject_Z 3 + inject_Z 1 * unit_price)))).
    split.
    + unfold compute, DiscountCalculator.__init__.
      change (Qle_bool 16 0) with false. cbn [orb].
      destruct (Qlt_bool unit_price 0); reflexivity.
    + cbn [Discount.discount_amount]. unfold inject_Z. ring.
Qed.

(** C1 at FIVE_FOR_AMOUNT 7.99 with sixteen kilos of apples at 1.99. *)
Lemma C1_group_discount_amount_witness :
  5%Z <> 0%Z /\ (16 >= 5)%Z
  /\ exists d,
       DiscountCalculator.calculate_group_discount apples 16 (199 # 100) 5
         (799 # 100) = Ok (Some d)
       /\ Discount.product d = apples
       /\ Discount.discount_amount d
          == group_discount_amount 16 (199 # 100) 5 (799 # 100).
Proof.
  assert (H1 : 5%Z <> 0%Z) by discriminate.
  assert (H2 : (16 >= 5)%Z) by discriminate.
  split; [exact H1|]. split; [exact H2|].
  exact (proj1 (C1_group_discount_amount apples 16 (199 # 100) 5 (799 # 100)
                  H1 H2)).
Defined.

(** C2 as stated fails in its example: a bundle price at or above
    group_size * unit_price does not make the amount 0.  FIVE_FOR_AMOUNT 10 on
    five units at price 1 returns a record of amount +5. *)
Lemma C2_counterexample :
  exists d,
    compute apples 5 1 (Offer.mk FIVE_FOR_AMOUNT 10) = Ok (Some d)
    /\ inject_Z 5 * 1 <= Offer.argument (Offer.mk FIVE_FOR_AMOUNT 10)
    /\ ~ (Discount.discount_amount d == 0).
Proof.
  eexists. split; [reflexivity|]. split; [discriminate|].
  vm_compute. discriminate.
Qed.

(** C2, amended: for a group offer and a valid input, the engine returns no
    discount below the group size and a discount record from the group size
    on, whatever the amount of the record, and [handle_offers] appends that
    record to the receipt.  A record of amount 0 is returned like any other:
    so it is for a product whose unit price and bundle price are 0, and for
    TWO_FOR_AMOUNT 2 on two units at price 1. *)
Theorem C2_group_threshold :
  forall (product : Product.t) (quantity unit_price : Q) (offer : Offer.t)
         (g : Z),
    0 < quantity -> 0 <= unit_price ->
    group_size_of (Offer.offer_type offer) = Some g ->
    (quantity < inject_Z g ->
       compute product quantity unit_price offer = Ok None)
    /\ (inject_Z g <= quantity ->
        exists d,
          compute product quantity unit_price offer = Ok (Some d)
          /\ Discount.product d = product
          /\ (unit_price == 0 -> bundle_price_of offer unit_price == 0 ->
              Discount.discount_amount d == 0)
          /\ forall rest receipt offers catalog,
               PyDict.get offers product = Some offer ->
               catalog product = Ok unit_price ->
               ShoppingCart.handle_offers_loop ((product, quantity) :: rest)
                 receipt offers catalog
               = ShoppingCart.handle_offers_loop rest
                   (Receipt.add_discount receipt d) offers catalog)
    /\ (exists d,
          compute product 2 1 (Offer.mk TWO_FOR_AMOUNT 2) = Ok (Some d)
          /\ Discount.discount_amount d == 0
          /\ forall rest receipt offers catalog,
               PyDict.get offers product = Some (Offer.mk TWO_FOR_AMOUNT 2) ->
               catalog product = Ok 1 ->
               ShoppingCart.handle_offers_loop ((product, 2) :: rest)
                 receipt offers catalog
               = ShoppingCart.handle_offers_loop rest
                   (Receipt.add_discount receipt d) offers catalog).
Proof.
  intros product quantity unit_price offer g Hq Hp Hg.
  assert (Hq0 : 0 <= quantity) by (apply Qlt_le_weak; exact Hq).
  rewrite (compute_valid _ _ _ _ Hq Hp).
  destruct (calculate_discount_group
              (DiscountCalculator.mk product (int quantity) unit_price offer)
              g Hg) as [Hcalc Hg0].
  cbn [DiscountCalculator.product DiscountCalculator.quantity
       DiscountCalculator.unit_price DiscountCalculator.offer] in Hcalc.
  split; [|split].
  - intro Hlt. rewrite Hcalc. apply amount_discount_none.
    apply int_lt; assumption.
  - intro Hge. pose proof (int_ge _ _ Hq0 Hge) as Hint.
    eexists. split; [|split; [|split]].
    + rewrite Hcalc. apply amount_discount_some; assumption.
    + reflexivity.
    + intros Hup Hb. cbn [Discount.discount_amount]. rewrite Hb, Hup. ring.
    + intros rest receipt offers catalog Hoff Hcat.
      rewrite (handle_offers_loop_step _ _ _ _ _ _ _ _ Hoff Hcat).
      rewrite (compute_valid _ _ _ _ Hq Hp), Hcalc.
      rewrite (amount_discount_some _ _ _ _ _ Hg0 Hint). reflexivity.
  - eexists. split; [reflexivity|]. split; [reflexivity|].
    intros rest receipt offers catalog Hoff Hcat.
    rewrite (handle_offers_loop_step _ _ _ _ _ _ _ _ Hoff Hcat).
    reflexivity.
Qed.

(** C2 at THREE_FOR_TWO with two and with three toothbrushes at 0.99: no
    discount for two, a record for three. *)
Lemma C2_group_threshold_witness :
  (0 < 2 /\ 0 < 3) /\ 0 <= 99 # 100
  /\ group_size_of (Offer.offer_type (Offer.mk THREE_FOR_TWO 0)) = Some 3%Z
  /\ 2 < inject_Z 3 /\ inject_Z 3 <= 3
  /\ compute toothbrush 2 (99 # 100) (Offer.mk THREE_FOR_TWO 0) = Ok None
  /\ exists d,
       compute toothbrush 3 (99 # 100) (Offer.mk THREE_FOR_TWO 0) = Ok (Some d)
       /\ Discount.product d = toothbrush
       /\ (99 # 100 == 0 ->
           bundle_price_of (Offer.mk THREE_FOR_TWO 0) (99 # 100) == 0 ->
           Discount.discount_amount d == 0)
       /\ forall rest receipt offers catalog,
            PyDict.get offers toothbrush = Some (Offer.mk THREE_FOR_TWO 0) ->
            catalog toothbrush = Ok (99 # 100) ->
            ShoppingCart.handle_offers_loop ((toothbrush, 3) :: rest)
              receipt offers catalog
            = ShoppingCart.handle_offers_loop rest
                (Receipt.add_discount receipt d) offers catalog.
Proof.
  assert (H2 : 0 < 2) by reflexivity.
  assert (H3 : 0 < 3) by reflexivity.
  assert (Hp : 0 <= 99 # 100) by discriminate.
  assert (Hg : group_size_of (Offer.offer_type (Offer.mk THREE_FOR_TWO 0))
               = Some 3%Z) by reflexivity.
  assert (Hlt : 2 < inject_Z 3) by reflexivity.
  assert (Hge : inject_Z 3 <= 3) by discriminate.
  split; [split; assumption|]. split; [exact Hp|]. split; [exact Hg|].
  split; [exact Hlt|]. split; [exact Hge|]. split.
  - exact (proj1 (C2_group_threshold toothbrush 2 (99 # 100)
                    (Offer.mk THREE_FOR_TWO 0) 3%Z H2 Hp Hg) Hlt).
  - exact (proj1 (proj2 (C2_group_threshold toothbrush 3 (99 # 100)
                           (Offer.mk THREE_FOR_TWO 0) 3%Z H3 Hp Hg)) Hge).
Defined.

(** C3 as stated fails on a fractional quantity: for 2.5 units at price 1
    and 10 percent the amount is -0.2, not -0.25. *)
Lemma C3_counterexample :
  exists d,
    compute rice (5 # 2) 1 (Offer.mk TEN_PERCENT_DISCOUNT 10) = Ok (Some d)
    /\ ~ (Discount.discount_amount d == - ((5 # 2) * 1 * (10 / 100))).
Proof.
  eexists. split; [reflexivity|]. vm_compute. discriminate.
Qed.

(** C3, amended: for a TEN_PERCENT_DISCOUNT offer with a valid quantity and
    unit price, the engine fails (with the invalid-argument error) if and
    only if the argument is outside [0,100]; otherwise it returns a discount
    described as "<argument>% off" whose amount is
    -(int(total_quantity) * unit_price * argument/100), the quantity being
    truncated to an integer; the amount is the one of the claim when the
    quantity is integral. *)
Theorem C3_ten_percent :
  forall (product : Product.t) (quantity unit_price argument : Q),
    0 < quantity -> 0 <= unit_price ->
    ((exists e,
         compute product quantity unit_price
           (Offer.mk TEN_PERCENT_DISCOUNT argument) = Raise e)
     <-> ~ (0 <= argument /\ argument <= 100))
    /\ (~ (0 <= argument /\ argument <= 100) ->
        compute product quantity unit_price
          (Offer.mk TEN_PERCENT_DISCOUNT argument)
        = Raise (ValueError percentage_message))
    /\ (0 <= argument /\ argument <= 100 ->
        exists d,
          compute product quantity unit_price
            (Offer.mk TEN_PERCENT_DISCOUNT argument) = Ok (Some d)
          /\ Discount.product d = product
          /\ Discount.description d = [NumField argument; Lit "% off"]
          /\ Discount.discount_amount d
             == - (inject_Z (int quantity) * unit_price * (argument / 100))
          /\ (inject_Z (int quantity) == quantity ->
              Discount.discount_amount d
              == - (quantity * unit_price * (argument / 100)))).
Proof.
  intros product quantity unit_price argument Hq Hp.
  rewrite (compute_valid _ _ _ _ Hq Hp).
  change (DiscountCalculator.calculate_discount
            (DiscountCalculator.mk product (int quantity) unit_price
               (Offer.mk TEN_PERCENT_DISCOUNT argument)))
    with (DiscountCalculator.ten_percent_discount
            (DiscountCalculator.mk product (int quantity) unit_price
               (Offer.mk TEN_PERCENT_DISCOUNT argument))).
  assert (Hraise : ~ (0 <= argument /\ argument <= 100) ->
            DiscountCalculator.ten_percent_discount
              (DiscountCalculator.mk product (int quantity) unit_price
                 (Offer.mk TEN_PERCENT_DISCOUNT argument))
            = Raise (ValueError percentage_message)).
  { intro H. apply ten_percent_raise. exact H. }
  assert (Hok : 0 <= argument /\ argument <= 100 ->
            DiscountCalculator.ten_percent_discount
              (DiscountCalculator.mk product (int quantity) unit_price
                 (Offer.mk TEN_PERCENT_DISCOUNT argument))
            = Ok (Some (Discount.mk product [NumField argument; Lit "% off"]
                          (inject_Z (- int quantity) * unit_price
                           * (argument / 100))))).
  { intro H. apply (ten_percent_ok
                      (DiscountCalculator.mk product (int quantity) unit_price
                         (Offer.mk TEN_PERCENT_DISCOUNT argument))). exact H. }
  split; [|split].
  - split.
    + intros [e He] Hin. rewrite (Hok Hin) in He. discriminate.
    + intro Hout. eexists. apply Hraise, Hout.
  - exact Hraise.
  - intro Hin. eexists. split; [apply Hok, Hin|].
    cbn [Discount.product Discount.description Discount.discount_amount].
    assert (Hamount : inject_Z (- int quantity) * unit_price * (argument / 100)
                      == - (inject_Z (int quantity) * unit_price
                            * (argument / 100))).
    { rewrite inject_Z_opp. ring. }
    repeat split.
    + exact Hamount.
    + intro Hint. rewrite Hamount, Hint. reflexivity.
Qed.

(** C3 at the percentage test of the suite: one rice at 2.99, 10 percent. *)
Lemma C3_ten_percent_witness :
  0 < 1 /\ 0 <= 299 # 100
  /\ (0 <= 10 /\ 10 <= 100 ->
      exists d,
        compute rice 1 (299 # 100) (Offer.mk TEN_PERCENT_DISCOUNT 10)
        = Ok (Some d)
        /\ Discount.product d = rice
        /\ Discount.description d = [NumField 10; Lit "% off"]
        /\ Discount.discount_amount d
           == - (inject_Z (int 1) * (299 # 100) * (10 / 100))
        /\ (inject_Z (int 1) == 1 ->
            Discount.discount_amount d == - (1 * (299 # 100) * (10 / 100)))).
Proof.
  assert (H1 : 0 < 1) by reflexivity.
  assert (H2 : 0 <= 299 # 100) by discriminate.
  split; [exact H1|]. split; [exact H2|].
  exact (proj2 (proj2 (C3_ten_percent rice 1 (299 # 100) 10 H1 H2))).
Defined.

(** C4: the constructor raises the invalid-argument error whenever
    quantity <= 0 or unit_price < 0, whatever the offer, so that
    [calculate_discount] and its dispatch are not reached.  In a checkout the
    check is made on the merged quantity of each product that has an offer,
    one key per product: a merged quantity that fails it makes the checkout
    raise, a checkout that returns has passed it for every such product, and
    a single entry with a quantity <= 0 does not fail by itself. *)
Theorem C4_validation :
  forall (product : Product.t) (offer : Offer.t) (quantity unit_price : Q),
    quantity <= 0 \/ unit_price < 0 ->
    DiscountCalculator.__init__ product quantity unit_price offer
    = Raise (ValueError invalid_input_message)
    /\ compute product quantity unit_price offer
       = Raise (ValueError invalid_input_message)
    /\ (forall teller ops,
          PyDict.get (ShoppingCart.product_quantities (run_cart ops)) product
          = Some quantity ->
          PyDict.get (Teller.offers teller) product = Some offer ->
          Teller.catalog teller product = Ok unit_price ->
          exists e,
            Teller.checks_out_articles_from teller (run_cart ops) = Raise e)
    /\ (forall teller ops receipt,
          Teller.checks_out_articles_from teller (run_cart ops) = Ok receipt ->
          NoDup (PyDict.keys (ShoppingCart.product_quantities (run_cart ops)))
          /\ forall p q o,
               PyDict.get (ShoppingCart.product_quantities (run_cart ops)) p
               = Some q ->
               PyDict.get (Teller.offers teller) p = Some o ->
               q == total_quantity p (ShoppingCart.items (run_cart ops))
               /\ 0 < q
               /\ exists up, Teller.catalog teller p = Ok up /\ 0 <= up)
    /\ (exists receipt d,
          In (ProductQuantity.mk toothbrush (-1))
             (ShoppingCart.items (run_cart returned_one))
          /\ Teller.checks_out_articles_from three_for_two_teller
               (run_cart returned_one) = Ok receipt
          /\ Receipt.discounts receipt = [d]).
Proof.
  intros product offer quantity unit_price Hbad.
  split; [apply init_raise, Hbad|]. split; [apply compute_invalid, Hbad|].
  split; [|split].
  - intros teller ops Hget Hoff Hcat.
    apply (checkout_raise teller (run_cart ops) product quantity offer).
    + apply In_of_get, Hget.
    + exact Hoff.
    + intros up r Hup. rewrite Hcat in Hup. inversion Hup; subst up.
      rewrite (compute_invalid _ _ _ _ Hbad). discriminate.
  - intros teller ops receipt H.
    destruct (cart_invariant_run ops) as [Hsum [_ Hnd]].
    split; [exact Hnd|]. intros p q o Hget Hoff.
    split; [apply Hsum, Hget|].
    apply checkout_inv in H. destruct H as [_ [_ Hall]].
    rewrite Forall_forall in Hall.
    destruct (Hall _ (In_of_get _ _ _ Hget) o Hoff) as [up [r [Hcat Hc]]].
    cbn in Hcat, Hc. apply compute_some_inv in Hc.
    destruct Hc as [Hq [Hp _]]. split; [exact Hq|]. exists up. auto.
  - eexists. eexists. split; [right; left; reflexivity|].
    split; reflexivity.
Qed.

(** C4 on no toothbrush at all under THREE_FOR_TWO. *)
Lemma C4_validation_witness :
  (0 <= 0 \/ 99 # 100 < 0)
  /\ compute toothbrush 0 (99 # 100) (Offer.mk THREE_FOR_TWO 0)
     = Raise (ValueError invalid_input_message).
Proof.
  assert (H : 0 <= 0 \/ 99 # 100 < 0) by (left; discriminate).
  split; [exact H|].
  exact (proj1 (proj2 (C4_validation toothbrush (Offer.mk THREE_FOR_TWO 0)
                         0 (99 # 100) H))).
Defined.





(** C7: a checkout that returns gives one receipt line per cart addition,
    in the order of the additions, each with the quantity of that addition,
    the catalog's unit price and their product as total price, so that a
    product added twice has two lines; its discounts are exactly, in the
    order of the merged map, what the engine returns for each product that
    has an offer on the merged quantity of that product, the sum over its
    additions.  The checkout returns when the catalog prices the cart's
    products and the engine accepts the offers that apply. *)
Theorem C7_checkout_lines :
  forall (teller : Teller.t) (ops : list cart_op),
    ShoppingCart.items (run_cart ops) = map cart_op_entry ops
    /\ (Forall (fun e => exists unit_price,
                  Teller.catalog teller (ProductQuantity.product e)
                  = Ok unit_price)
          (ShoppingCart.items (run_cart ops)) ->
        Forall (offer_computes (Teller.offers teller) (Teller.catalog teller))
          (PyDict.items (ShoppingCart.product_quantities (run_cart ops))) ->
        exists receipt,
          Teller.checks_out_articles_from teller (run_cart ops) = Ok receipt)
    /\ (forall receipt,
          Teller.checks_out_articles_from teller (run_cart ops) = Ok receipt ->
          Forall2 (receipt_line_of (Teller.catalog teller))
            (map cart_op_entry ops) (Receipt.items receipt)
          /\ List.length (Receipt.items receipt) = List.length ops
          /\ Receipt.discounts receipt
             = flat_map (entry_discount (Teller.offers teller)
                           (Teller.catalog teller))
                 (PyDict.items
                    (ShoppingCart.product_quantities (run_cart ops)))
          /\ (forall p q,
                In (p, q)
                   (PyDict.items
                      (ShoppingCart.product_quantities (run_cart ops))) ->
                q == total_quantity p (ShoppingCart.items (run_cart ops)))
          /\ Forall (discount_of_merged teller (run_cart ops))
               (Receipt.discounts receipt)).
Proof.
  intros teller ops. split; [apply run_cart_items|]. split.
  - apply checkout_total.
  - intros receipt H.
    pose proof (checkout_discounts_exact _ _ _ H) as Hexact.
    apply checkout_inv in H. destruct H as [Hl [Hd _]].
    destruct (cart_invariant_run ops) as [Hsum [_ Hnd]].
    rewrite run_cart_items in Hl. split; [exact Hl|]. split; [|split; [|split]].
    + apply Forall2_length in Hl. rewrite length_map in Hl. now symmetry.
    + exact Hexact.
    + intros p q Hin. apply Hsum, (get_of_In _ _ _ Hnd Hin).
    + eapply Forall_impl; [|exact Hd].
      intros d [q [up [offer [Hin [Hoff [Hcat Hc]]]]]].
      pose proof (get_of_In _ _ _ Hnd Hin) as Hget.
      exists q, up, offer. repeat split; auto.
Qed.

(** C7 on a cart with two additions of toothbrushes (1, then 2) under
    THREE_FOR_TWO: two lines, and the one discount of three toothbrushes. *)
Lemma C7_checkout_lines_witness :
  exists receipt,
    Teller.checks_out_articles_from three_for_two_teller
      (run_cart two_additions) = Ok receipt
    /\ (Forall2 (receipt_line_of (Teller.catalog three_for_two_teller))
          (map cart_op_entry two_additions) (Receipt.items receipt)
        /\ List.length (Receipt.items receipt) = List.length two_additions
        /\ Receipt.discounts receipt
           = flat_map (entry_discount (Teller.offers three_for_two_teller)
                         (Teller.catalog three_for_two_teller))
               (PyDict.items
                  (ShoppingCart.product_quantities (run_cart two_additions)))
        /\ (forall p q,
              In (p, q)
                 (PyDict.items
                    (ShoppingCart.product_quantities
                       (run_cart two_additions))) ->
              q == total_quantity p
                     (ShoppingCart.items (run_cart two_additions)))
        /\ Forall (discount_of_merged three_for_two_teller
                     (run_cart two_additions))
             (Receipt.discounts receipt))
    /\ PyDict.items (ShoppingCart.product_quantities (run_cart two_additions))
       = [(toothbrush, 0 + 1 + 2)]
    /\ Receipt.discounts receipt
       = [Discount.mk toothbrush
            [IntField 3; Lit " for "; NumField (2 * (99 # 100))]
            (- (inject_Z 3 * (99 # 100)
                - (2 * (99 # 100) * inject_Z (3 / 3)
                   + inject_Z (3 mod 3) * (99 # 100))))].
Proof.
  eexists. split; [reflexivity|]. split; [|split; reflexivity].
  apply (proj2 (proj2 (C7_checkout_lines three_for_two_teller two_additions))).
  reflexivity.
Defined.

(** C8 as stated fails: with an out-of-range percentage on rice and a
    THREE_FOR_TWO on three toothbrushes, the error of the rice offer is the
    result of the checkout; no receipt is returned and the toothbrush
    discount, which the engine would compute, is never reached. *)
Lemma C8_counterexample :
  compute rice 1 (299 # 100) (Offer.mk TEN_PERCENT_DISCOUNT 150)
  = Raise (ValueError percentage_message)
  /\ (exists d,
        compute toothbrush 3 (99 # 100) (Offer.mk THREE_FOR_TWO 0)
        = Ok (Some d))
  /\ Teller.checks_out_articles_from bad_percent_teller
       (run_cart rice_then_toothbrushes)
     = Raise (ValueError percentage_message)
  /\ ~ exists receipt,
         Teller.checks_out_articles_from bad_percent_teller
           (run_cart rice_then_toothbrushes) = Ok receipt.
Proof.
  split; [reflexivity|]. split; [eexists; reflexivity|].
  split; [reflexivity|]. intros [receipt H]. discriminate.
Qed.

(** C8, amended: an error raised while the discount of one product of the
    merged map is computed aborts the whole checkout: the checkout raises and
    returns no receipt; when the products before it in the map are processed
    without error, the checkout raises that very error, and the products
    after it are not processed. *)
Theorem C8_error_aborts_checkout :
  forall (teller : Teller.t) (cart : ShoppingCart.t) (product : Product.t)
         (quantity unit_price : Q) (offer : Offer.t) (e : exception),
    In (product, quantity)
       (PyDict.items (ShoppingCart.product_quantities cart)) ->
    PyDict.get (Teller.offers teller) product = Some offer ->
    Teller.catalog teller product = Ok unit_price ->
    compute product quantity unit_price offer = Raise e ->
    (exists e', Teller.checks_out_articles_from teller cart = Raise e')
    /\ (forall before after receipt0 receipt1,
          PyDict.items (ShoppingCart.product_quantities cart)
          = before ++ (product, quantity) :: after ->
          Teller._add_cart_items_to_receipt teller cart Receipt.__init__
          = Ok receipt0 ->
          ShoppingCart.handle_offers_loop before receipt0
            (Teller.offers teller) (Teller.catalog teller) = Ok receipt1 ->
          Teller.checks_out_articles_from teller cart = Raise e).
Proof.
  intros teller cart product quantity unit_price offer e Hin Hoff Hcat Hc.
  split.
  - apply (checkout_raise teller cart product quantity offer Hin Hoff).
    intros up r Hup. rewrite Hcat in Hup. inversion Hup; subst up.
    rewrite Hc. discriminate.
  - intros before after receipt0 receipt1 Hsplit H0 H1.
    unfold Teller.checks_out_articles_from. cbv zeta. rewrite H0. cbn [bind].
    unfold Teller._apply_offers, ShoppingCart.handle_offers.
    unfold ShoppingCart.product_quantities in Hsplit. rewrite Hsplit.
    rewrite handle_offers_loop_app, H1. cbn [bind].
    rewrite (handle_offers_loop_step _ _ _ _ _ _ _ _ Hoff Hcat), Hc.
    reflexivity.
Qed.

(** C8 on the cart with rice (150 percent) and three toothbrushes. *)
Lemma C8_error_aborts_checkout_witness :
  exists e',
    Teller.checks_out_articles_from bad_percent_teller
      (run_cart rice_then_toothbrushes) = Raise e'.
Proof.
  apply (proj1 (C8_error_aborts_checkout bad_percent_teller
                  (run_cart rice_then_toothbrushes) rice (0 + 1) (299 # 100)
                  (Offer.mk TEN_PERCENT_DISCOUNT 150)
                  (ValueError percentage_message)
                  (or_introl eq_refl) eq_refl eq_refl eq_refl)).
Defined.

(** C9: for an accepted input the constructor stores int(quantity), the
    integer part of the quantity, and every offer computation, the
    percentage one included, depends on the quantity only through it: 2.5 is
    treated as 2.  The receipt line keeps the quantity of the cart, so the
    discount can be computed on less than what the line shows. *)
Theorem C9_quantity_truncated :
  forall (product : Product.t) (quantity unit_price : Q) (offer : Offer.t),
    0 < quantity -> 0 <= unit_price ->
    (exists self,
        DiscountCalculator.__init__ product quantity unit_price offer = Ok self
        /\ DiscountCalculator.quantity self = int quantity
        /\ inject_Z (DiscountCalculator.quantity self) <= quantity
        /\ quantity < inject_Z (DiscountCalculator.quantity self) + 1)
    /\ (forall quantity',
          0 < quantity' -> int quantity' = int quantity ->
          compute product quantity' unit_price offer
          = compute product quantity unit_price offer)
    /\ (forall argument,
          0 <= argument /\ argument <= 100 ->
          exists d,
            compute product quantity unit_price
              (Offer.mk TEN_PERCENT_DISCOUNT argument) = Ok (Some d)
            /\ Discount.discount_amount d
               == - (inject_Z (int quantity) * unit_price * (argument / 100)))
    /\ int (5 # 2) = 2%Z
    /\ compute product (5 # 2) unit_price offer
       = compute product 2 unit_price offer
    /\ (exists receipt d,
          Teller.checks_out_articles_from percent_teller kilo_cart = Ok receipt
          /\ Receipt.items receipt
             = [ReceiptItem.mk apples (5 # 2) (199 # 100)
                  ((5 # 2) * (199 # 100))]
          /\ Receipt.discounts receipt = [d]
          /\ Discount.discount_amount d == - (2 * (199 # 100) * (10 / 100))).
Proof.
  intros product quantity unit_price offer Hq Hp.
  assert (Hq0 : 0 <= quantity) by (apply Qlt_le_weak; exact Hq).
  split; [|split; [|split; [|split; [|split]]]].
  - eexists. split; [apply init_ok; assumption|].
    cbn [DiscountCalculator.quantity]. split; [reflexivity|].
    apply int_bounds, Hq0.
  - intros quantity' Hq' Hint.
    rewrite (compute_valid _ _ _ _ Hq' Hp), (compute_valid _ _ _ _ Hq Hp).
    now rewrite Hint.
  - intros argument Hin.
    destruct (ten_percent_amount_truncated product quantity unit_price
                argument Hq Hp Hin) as [d [H1 H2]].
    exists d. split; assumption.
  - reflexivity.
  - rewrite !compute_valid by (try reflexivity; try discriminate; exact Hp).
    reflexivity.
  - eexists. eexists. split; [reflexivity|].
    split; [reflexivity|]. split; [reflexivity|]. reflexivity.
Qed.

(** C9 on 2.5 kilos of apples at 1.99 under 10 percent. *)
Lemma C9_quantity_truncated_witness :
  0 < 5 # 2 /\ 0 <= 199 # 100
  /\ exists self,
       DiscountCalculator.__init__ apples (5 # 2) (199 # 100)
         (Offer.mk TEN_PERCENT_DISCOUNT 10) = Ok self
       /\ DiscountCalculator.quantity self = int (5 # 2)
       /\ inject_Z (DiscountCalculator.quantity self) <= 5 # 2
       /\ 5 # 2 < inject_Z (DiscountCalculator.quantity self) + 1.
Proof.
  assert (H1 : 0 < 5 # 2) by reflexivity.
  assert (H2 : 0 <= 199 # 100) by discriminate.
  split; [exact H1|]. split; [exact H2|].
  exact (proj1 (C9_quantity_truncated apples (5 # 2) (199 # 100)
                  (Offer.mk TEN_PERCENT_DISCOUNT 10) H1 H2)).
Defined.

(** C10: after any sequence of add_item / add_item_quantity calls, the entry
    of a product in the merged map is the sum of the quantities of its
    entries in the history, the product is in the map exactly when it has an
    entry, and each product has one key; both additions preserve this. *)
Theorem C10_merged_quantities :
  forall (ops : list cart_op) (product : Product.t),
    match PyDict.get (ShoppingCart.product_quantities (run_cart ops)) product
    with
    | Some quantity =>
        quantity == total_quantity product (ShoppingCart.items (run_cart ops))
        /\ exists e, In e (ShoppingCart.items (run_cart ops))
                     /\ ProductQuantity.product e = product
    | None =>
        ~ exists e, In e (ShoppingCart.items (run_cart ops))
                    /\ ProductQuantity.product e = product
    end
    /\ NoDup (PyDict.keys (ShoppingCart.product_quantities (run_cart ops)))
    /\ cart_invariant (run_cart ops)
    /\ (forall cart p q,
          cart_invariant cart ->
          cart_invariant (ShoppingCart.add_item_quantity cart p q))
    /\ (forall cart p,
          cart_invariant cart -> cart_invariant (ShoppingCart.add_item cart p)).
Proof.
  intros ops product.
  pose proof (cart_invariant_run ops) as Hinv.
  destruct Hinv as [Hsum [Hin Hnd]].
  split; [|split; [exact Hnd | split; [apply cart_invariant_run | split]]].
  - destruct (PyDict.get _ product) as [q|] eqn:G.
    + split; [apply Hsum, G|]. apply Hin. unfold PyDict.contains.
      now rewrite G.
    + intro Hex. apply Hin in Hex. unfold PyDict.contains in Hex.
      rewrite G in Hex. discriminate.
  - intros cart p q. apply cart_invariant_add_item_quantity.
  - intros cart p. apply cart_invariant_add_item.
Qed.

(** C10 on a cart with two additions of toothbrushes and one of rice. *)
Lemma C10_merged_quantities_witness :
  PyDict.get
    (ShoppingCart.product_quantities
       (run_cart [AddItem toothbrush; AddItemQuantity rice 2;
                  AddItemQuantity toothbrush 2]))
    toothbrush = Some (0 + 1 + 2)
  /\ 0 + 1 + 2
     == total_quantity toothbrush
          (ShoppingCart.items
             (run_cart [AddItem toothbrush; AddItemQuantity rice 2;
                        AddItemQuantity toothbrush 2])).
Proof.
  split; [reflexivity|].
  exact (proj1 (proj1 (C10_merged_quantities
                         [AddItem toothbrush; AddItemQuantity rice 2;
                          AddItemQuantity toothbrush 2] toothbrush))).
Defined.

(** * Further properties of the code *)

(** ** The discount engine *)

(** X1: an offer whose type is not one of the four never yields a result: the
    engine raises the invalid-input error when the quantity or price is
    invalid, the unknown-offer-type error otherwise, and a checkout whose cart
    holds a product with such an offer raises. *)
Theorem X1_unknown_offer_type :
  forall (product : Product.t) (quantity unit_price argument : Q)
         (repr : string),
    (quantity <= 0 \/ unit_price < 0 ->
       compute product quantity unit_price (Offer.mk (OTHER repr) argument)
       = Raise (ValueError invalid_input_message))
    /\ (0 < quantity -> 0 <= unit_price ->
        compute product quantity unit_price (Offer.mk (OTHER repr) argument)
        = Raise (ValueError ("Unknown offer type: " ++ repr)))
    /\ (forall teller cart,
          In (product, quantity)
             (PyDict.items (ShoppingCart.product_quantities cart)) ->
          PyDict.get (Teller.offers teller) product
          = Some (Offer.mk (OTHER repr) argument) ->
          exists e, Teller.checks_out_articles_from teller cart = Raise e).
Proof.
  intros product quantity unit_price argument repr.
  split; [|split].
  - apply compute_invalid.
  - intros Hq Hp. now rewrite (compute_valid _ _ _ _ Hq Hp).
  - intros teller cart Hin Hoff.
    apply (checkout_raise teller cart product quantity _ Hin Hoff).
    intros up r _ Hc.
    destruct (init_cases quantity up) as [[Hq Hp] | Hbad].
    + rewrite (compute_valid _ _ _ _ Hq Hp) in Hc. discriminate.
    + rewrite (compute_invalid _ _ _ _ Hbad) in Hc. discriminate.
Qed.

Lemma inject_Z_nonneg (z : Z) : (0 <= z)%Z -> 0 <= inject_Z z.
Proof. intro H. change 0 with (inject_Z 0). now rewrite <- Zle_Qle. Qed.

Lemma group_payable_nonneg quantity unit_price g bundle :
  (0 < g)%Z -> (0 <= quantity)%Z -> 0 <= unit_price -> 0 <= bundle ->
  0 <= inject_Z quantity * unit_price
       + group_discount_amount quantity unit_price g bundle.
Proof.
  intros Hg Hq Hp Hb. unfold group_discount_amount. cbv zeta.
  assert (Hn : 0 <= inject_Z (quantity / g))
    by (apply inject_Z_nonneg, Z.div_pos; lia).
  assert (Hr : 0 <= inject_Z (quantity mod g))
    by (apply inject_Z_nonneg, Z.mod_pos_bound; lia).
  pose proof (Qmult_le_0_compat _ _ Hn Hb) as H1.
  pose proof (Qmult_le_0_compat _ _ Hr Hp) as H2.
  lra.
Qed.

Lemma truncated_price_le quantity unit_price :
  0 <= quantity -> 0 <= unit_price ->
  inject_Z (int quantity) * unit_price <= quantity * unit_price.
Proof.
  intros Hq Hp. apply Qmult_le_compat_r; [|exact Hp].
  apply int_bounds, Hq.
Qed.

(** X3: the engine never takes off more than the product costs: for a
    discount it returns, with a nonnegative argument when the offer is
    TWO_FOR_AMOUNT or FIVE_FOR_AMOUNT, the price of the truncated quantity
    plus the discount amount is at least 0, and so is the price of the whole
    quantity plus the amount. *)
Theorem X3_discount_within_price :
  forall (product : Product.t) (quantity unit_price : Q) (offer : Offer.t)
         (d : Discount.t),
    compute product quantity unit_price offer = Ok (Some d) ->
    (Offer.offer_type offer = TWO_FOR_AMOUNT
     \/ Offer.offer_type offer = FIVE_FOR_AMOUNT ->
     0 <= Offer.argument offer) ->
    0 <= inject_Z (int quantity) * unit_price + Discount.discount_amount d
    /\ 0 <= quantity * unit_price + Discount.discount_amount d.
Proof.
  intros product quantity unit_price offer d H Harg.
  apply compute_some_inv in H. destruct H as [Hq [Hp H]].
  assert (Hq0 : 0 <= quantity) by (apply Qlt_le_weak; exact Hq).
  pose proof (int_nonneg _ Hq0) as Hint.
  assert (Hmain : 0 <= inject_Z (int quantity) * unit_price
                       + Discount.discount_amount d).
  { destruct offer as [ot arg]. cbn in Harg. destruct ot.
    - destruct (amount_discount_inv _ _ _ 3%Z _ _ eq_refl H) as [_ Ha].
      rewrite Ha. apply group_payable_nonneg; [lia | exact Hint | exact Hp|].
      cbn. lra.
    - change (DiscountCalculator.calculate_discount ?c)
        with (DiscountCalculator.ten_percent_discount c) in H.
      destruct (percentage_dec arg) as [Hin | Hout].
      + rewrite ten_percent_ok in H by exact Hin.
        inversion H; subst. cbn. rewrite inject_Z_opp.
        pose proof (inject_Z_nonneg _ Hint) as Hi.
        pose proof (Qmult_le_0_compat _ _ Hi Hp) as Hfull.
        assert (Hrest : 0 <= 1 - arg / 100).
        { assert (arg / 100 <= 1)
            by (apply Qle_shift_div_r; [reflexivity | lra]).
          lra. }
        pose proof (Qmult_le_0_compat _ _ Hfull Hrest) as Hprod.
        setoid_replace (inject_Z (int quantity) * unit_price
                        + - inject_Z (int quantity) * unit_price * (arg / 100))
          with (inject_Z (int quantity) * unit_price * (1 - arg / 100))
          by ring.
        exact Hprod.
      + rewrite ten_percent_raise in H by exact Hout. discriminate.
    - destruct (amount_discount_inv _ _ _ 2%Z _ _ eq_refl H) as [_ Ha].
      rewrite Ha. apply group_payable_nonneg; [lia | exact Hint | exact Hp|].
      cbn. apply Harg. now left.
    - destruct (amount_discount_inv _ _ _ 5%Z _ _ eq_refl H) as [_ Ha].
      rewrite Ha. apply group_payable_nonneg; [lia | exact Hint | exact Hp|].
      cbn. apply Harg. now right.
    - discriminate. }
  split; [exact Hmain|].
  pose proof (truncated_price_le _ _ Hq0 Hp). lra.
Qed.

(** X3 on sixteen kilos of apples at 1.99 under FIVE_FOR_AMOUNT 7.99. *)
Lemma X3_discount_within_price_witness :
  0 <= inject_Z (int 16) * (199 # 100)
       + - (inject_Z 16 * (199 # 100)
            - ((799 # 100) * inject_Z (16 / 5)
               + inject_Z (16 mod 5) * (199 # 100)))
  /\ 0 <= 16 * (199 # 100)
          + - (inject_Z 16 * (199 # 100)
               - ((799 # 100) * inject_Z (16 / 5)
                  + inject_Z (16 mod 5) * (199 # 100))).
Proof.
  apply (X3_discount_within_price apples 16 (199 # 100)
           (Offer.mk FIVE_FOR_AMOUNT (799 # 100))
           (Discount.mk apples
              [IntField 5; Lit " for "; NumField (799 # 100)]
              (- (inject_Z 16 * (199 # 100)
                  - ((799 # 100) * inject_Z (16 / 5)
                     + inject_Z (16 mod 5) * (199 # 100)))))).
  - reflexivity.
  - intros _. discriminate.
Defined.

(** X4: the two ends of the percentage range are accepted: 0 percent still
    gives a discount record, of amount 0, and 100 percent takes off the whole
    price of the truncated quantity. *)
Theorem X4_percentage_endpoints :
  forall (product : Product.t) (quantity unit_price : Q),
    0 < quantity -> 0 <= unit_price ->
    (exists d,
        compute product quantity unit_price
          (Offer.mk TEN_PERCENT_DISCOUNT 0) = Ok (Some d)
        /\ Discount.discount_amount d == 0)
    /\ (exists d,
        compute product quantity unit_price
          (Offer.mk TEN_PERCENT_DISCOUNT 100) = Ok (Some d)
        /\ Discount.discount_amount d
           == - (inject_Z (int quantity) * unit_price)).
Proof.
  intros product quantity unit_price Hq Hp. split.
  - destruct (ten_percent_amount_truncated product quantity unit_price 0
                Hq Hp) as [d [H1 H2]]; [split; discriminate|].
    exists d. split; [exact H1|]. rewrite H2. field.
  - destruct (ten_percent_amount_truncated product quantity unit_price 100
                Hq Hp) as [d [H1 H2]]; [split; discriminate|].
    exists d. split; [exact H1|]. rewrite H2. field.
Qed.

(** X4 on one rice at 2.99. *)
Lemma X4_percentage_endpoints_witness :
  exists d,
    compute rice 1 (299 # 100) (Offer.mk TEN_PERCENT_DISCOUNT 0) = Ok (Some d)
    /\ Discount.discount_amount d == 0.
Proof.
  apply (proj1 (X4_percentage_endpoints rice 1 (299 # 100) eq_refl
                  ltac:(discriminate))).
Defined.

Lemma int_below_one (x : Q) : 0 <= x -> x < 1 -> int x = 0%Z.
Proof.
  intros H0 H1. pose proof (int_nonneg _ H0) as Hlo.
  pose proof (int_lt x 1 H0 H1) as Hhi. lia.
Qed.

(** X5: a positive quantity below 1 (half a kilo) passes the validation and
    is then discounted as 0 units: a group offer returns no discount, and a
    percentage offer in range returns a record of amount 0. *)
Theorem X5_quantity_below_one :
  forall (product : Product.t) (quantity unit_price : Q) (offer : Offer.t),
    0 < quantity -> quantity < 1 -> 0 <= unit_price ->
    (forall g,
        group_size_of (Offer.offer_type offer) = Some g ->
        compute product quantity unit_price offer = Ok None)
    /\ (Offer.offer_type offer = TEN_PERCENT_DISCOUNT ->
        0 <= Offer.argument offer /\ Offer.argument offer <= 100 ->
        exists d,
          compute product quantity unit_price offer = Ok (Some d)
          /\ Discount.discount_amount d == 0).
Proof.
  intros product quantity unit_price offer Hq H1 Hp.
  assert (Hq0 : 0 <= quantity) by (apply Qlt_le_weak; exact Hq).
  pose proof (int_below_one _ Hq0 H1) as Hint.
  split.
  - intros g Hg. rewrite (compute_valid _ _ _ _ Hq Hp).
    destruct (calculate_discount_group
                (DiscountCalculator.mk product (int quantity) unit_price offer)
                g Hg) as [Hcalc _].
    cbn in Hcalc. rewrite Hcalc. apply amount_discount_none.
    rewrite Hint. pose proof (group_size_of_pos _ _ Hg). lia.
  - destruct offer as [ot arg]. cbn. intros -> Hin.
    destruct (ten_percent_amount_truncated product quantity unit_price arg
                Hq Hp Hin) as [d [Hd Ha]].
    exists d. split; [exact Hd|]. rewrite Ha, Hint.
    change (inject_Z 0) with 0. ring.
Qed.

(** X5 on half a kilo of apples at 1.99 under FIVE_FOR_AMOUNT. *)
Lemma X5_quantity_below_one_witness :
  compute apples (1 # 2) (199 # 100) (Offer.mk FIVE_FOR_AMOUNT (799 # 100))
  = Ok None.
Proof.
  apply (proj1 (X5_quantity_below_one apples (1 # 2) (199 # 100)
                  (Offer.mk FIVE_FOR_AMOUNT (799 # 100))
                  eq_refl eq_refl ltac:(discriminate)) 5%Z eq_refl).
Defined.

(** ** The cart and the order of its merged map *)

Lemma Product_eqb_sym (p q : Product.t) : Product.eqb p q = Product.eqb q p.
Proof.
  destruct (Product.eqb p q) eqn:E1, (Product.eqb q p) eqn:E2;
    try reflexivity.
  - apply Product_eqb_eq in E1. subst. now rewrite Product_eqb_refl in E2.
  - apply Product_eqb_eq in E2. subst. now rewrite Product_eqb_refl in E1.
Qed.

Lemma contains_existsb {V : Type} (d : PyDict.t V) (k : Product.t) :
  PyDict.contains d k = existsb (Product.eqb k) (PyDict.keys d).
Proof.
  unfold PyDict.contains, PyDict.keys.
  induction d as [|[k1 v1] rest IH]; simpl.
  - reflexivity.
  - rewrite (Product_eqb_sym k k1).
    destruct (Product.eqb k1 k); [reflexivity | exact IH].
Qed.

Lemma first_occurrences_snoc products product :
  first_occurrences (products ++ [product])
  = if existsb (Product.eqb product) (first_occurrences products)
    then first_occurrences products
    else first_occurrences products ++ [product].
Proof. unfold first_occurrences. now rewrite fold_left_app. Qed.

(** X6: the keys of the merged map of a cart are the products of its
    history, each once, in the order in which they were first added; this is
    the order in which [handle_offers] visits them. *)
Theorem X6_merged_key_order :
  forall (ops : list cart_op),
    PyDict.keys (ShoppingCart.product_quantities (run_cart ops))
    = first_occurrences
        (map ProductQuantity.product (ShoppingCart.items (run_cart ops))).
Proof.
  intro ops. induction ops as [|op ops IH] using rev_ind.
  - reflexivity.
  - rewrite run_cart_snoc.
    assert (Hadd : forall p q,
              PyDict.keys (ShoppingCart.product_quantities
                             (ShoppingCart.add_item_quantity (run_cart ops)
                                p q))
              = first_occurrences
                  (map ProductQuantity.product
                     (ShoppingCart.items
                        (ShoppingCart.add_item_quantity (run_cart ops) p q)))).
    { intros p q. unfold ShoppingCart.add_item_quantity,
        ShoppingCart.product_quantities, ShoppingCart.items in *.
      cbn [ShoppingCart._items ShoppingCart._product_quantities].
      rewrite keys_set, map_app. cbn [map ProductQuantity.product].
      rewrite first_occurrences_snoc, <- IH, <- contains_existsb.
      reflexivity. }
    destruct op as [p | p q]; apply Hadd.
Qed.

Lemma entry_discount_product offers catalog entry d :
  In d (entry_discount offers catalog entry) -> Discount.product d = fst entry.
Proof.
  unfold entry_discount.
  destruct (PyDict.get offers (fst entry)) as [offer|]; [|contradiction].
  destruct (catalog (fst entry)) as [up|err]; [|contradiction].
  destruct (compute (fst entry) (snd entry) up offer) as [[d'|]|err] eqn:Hc;
    try contradiction.
  intros [<- | []]. apply (compute_product _ _ _ _ _ Hc).
Qed.

Lemma entry_discount_length offers catalog entry :
  (List.length (entry_discount offers catalog entry) <= 1)%nat.
Proof.
  unfold entry_discount.
  destruct (PyDict.get offers (fst entry)) as [offer|]; [|cbn; lia].
  destruct (catalog (fst entry)) as [up|err]; [|cbn; lia].
  destruct (compute (fst entry) (snd entry) up offer) as [[d'|]|err];
    cbn; lia.
Qed.

Lemma entry_discounts_NoDup offers catalog entries :
  NoDup (map fst entries) ->
  NoDup (map Discount.product
           (flat_map (entry_discount offers catalog) entries)).
Proof.
  induction entries as [|entry entries IH]; cbn; intro Hnd.
  - constructor.
  - inversion Hnd as [|? ? Hnotin Hrest]; subst.
    rewrite map_app.
    pose proof (entry_discount_length offers catalog entry) as Hlen.
    destruct (entry_discount offers catalog entry) as [|d [|d' l]] eqn:E;
      [apply IH, Hrest | | cbn in Hlen; lia].
    cbn. constructor; [|apply IH, Hrest].
    assert (Hd : Discount.product d = fst entry).
    { apply (entry_discount_product offers catalog). rewrite E. now left. }
    rewrite Hd. intro Hin. apply Hnotin.
    apply in_map_iff in Hin. destruct Hin as [d2 [Hp Hin2]].
    apply in_flat_map in Hin2. destruct Hin2 as [entry2 [Hin2 Hd2]].
    apply entry_discount_product in Hd2.
    apply in_map_iff. exists entry2. split; [congruence | exact Hin2].
Qed.

(** X7: [handle_offers] leaves the lines and the discounts already on the
    receipt as they are and appends, in the order of the merged map, exactly
    the discounts the engine returns for the entries whose product has an
    offer; on a receipt returned by a checkout these are all the discounts. *)
Theorem X7_discounts_in_map_order :
  forall (cart : ShoppingCart.t) (receipt receipt' : Receipt.t)
         (offers : PyDict.t Offer.t) (catalog : SupermarketCatalog),
    ShoppingCart.handle_offers cart receipt offers catalog = Ok receipt' ->
    Receipt.items receipt' = Receipt.items receipt
    /\ Receipt.discounts receipt'
       = Receipt.discounts receipt
         ++ flat_map (entry_discount offers catalog)
              (PyDict.items (ShoppingCart.product_quantities cart))
    /\ forall teller checked_out,
         Teller.checks_out_articles_from teller cart = Ok checked_out ->
         Receipt.discounts checked_out
         = flat_map (entry_discount (Teller.offers teller)
                       (Teller.catalog teller))
             (PyDict.items (ShoppingCart.product_quantities cart)).
Proof.
  intros cart receipt receipt' offers catalog H.
  unfold ShoppingCart.handle_offers in H.
  apply handle_offers_loop_exact in H. subst receipt'.
  split; [reflexivity|]. split; [reflexivity|].
  intros teller checked_out Hc.
  unfold Teller.checks_out_articles_from, Teller._add_cart_items_to_receipt,
    Teller._apply_offers, ShoppingCart.handle_offers in Hc. cbv zeta in Hc.
  destruct (Teller._add_cart_items_loop teller (ShoppingCart.items cart)
              Receipt.__init__) as [r1|err] eqn:H1; [|discriminate].
  cbn [bind] in Hc.
  destruct (ShoppingCart.handle_offers_loop _ r1 _ _) as [r2|err] eqn:H2;
    [|discriminate].
  cbn [bind] in Hc. inversion Hc; subst r2.
  apply add_cart_items_loop_inv in H1. destruct H1 as [_ [_ [Hd _]]].
  apply handle_offers_loop_exact in H2. rewrite H2.
  unfold Receipt.discounts. cbn [Receipt._discounts]. rewrite Hd.
  reflexivity.
Qed.

(** X7 on the cart with two additions of toothbrushes under THREE_FOR_TWO. *)
Lemma X7_discounts_in_map_order_witness :
  Receipt.discounts
    (Receipt.mk []
       [Discount.mk toothbrush
          [IntField 3; Lit " for "; NumField (2 * (99 # 100))]
          (- (inject_Z 3 * (99 # 100)
              - (2 * (99 # 100) * inject_Z 1 + inject_Z 0 * (99 # 100))))])
  = Receipt.discounts Receipt.__init__
    ++ flat_map (entry_discount (Teller.offers three_for_two_teller)
                   test_catalog)
         (PyDict.items
            (ShoppingCart.product_quantities (run_cart two_additions))).
Proof.
  apply (proj1 (proj2 (X7_discounts_in_map_order (run_cart two_additions)
                         Receipt.__init__ _
                         (Teller.offers three_for_two_teller) test_catalog
                         eq_refl))).
Defined.

(** X8: a receipt returned by the checkout of a cart built by additions
    carries at most one discount per product, and no more discounts than the
    cart has distinct products. *)
Theorem X8_one_discount_per_product :
  forall (teller : Teller.t) (ops : list cart_op) (receipt : Receipt.t),
    Teller.checks_out_articles_from teller (run_cart ops) = Ok receipt ->
    NoDup (map Discount.product (Receipt.discounts receipt))
    /\ (List.length (Receipt.discounts receipt)
        <= List.length
             (PyDict.keys (ShoppingCart.product_quantities (run_cart ops))))%nat.
Proof.
  intros teller ops receipt H.
  assert (Hd : Receipt.discounts receipt
               = flat_map (entry_discount (Teller.offers teller)
                             (Teller.catalog teller))
                   (PyDict.items
                      (ShoppingCart.product_quantities (run_cart ops)))).
  { unfold Teller.checks_out_articles_from, Teller._add_cart_items_to_receipt,
      Teller._apply_offers, ShoppingCart.handle_offers in H. cbv zeta in H.
    destruct (Teller._add_cart_items_loop teller _ Receipt.__init__)
      as [r1|err] eqn:H1; [|discriminate].
    cbn [bind] in H.
    destruct (ShoppingCart.handle_offers_loop _ r1 _ _) as [r2|err] eqn:H2;
      [|discriminate].
    cbn [bind] in H. inversion H; subst r2.
    apply add_cart_items_loop_inv in H1. destruct H1 as [_ [_ [Hd1 _]]].
    apply handle_offers_loop_exact in H2. rewrite H2.
    unfold Receipt.discounts. cbn [Receipt._discounts]. rewrite Hd1.
    reflexivity. }
  rewrite Hd. destruct (cart_invariant_run ops) as [_ [_ Hnd]].
  split.
  - apply entry_discounts_NoDup. exact Hnd.
  - unfold PyDict.keys, PyDict.items. rewrite length_map.
    generalize (ShoppingCart.product_quantities (run_cart ops)).
    intro entries. induction entries as [|entry entries IH]; cbn; [lia|].
    rewrite length_app.
    pose proof (entry_discount_length (Teller.offers teller)
                  (Teller.catalog teller) entry). lia.
Qed.

(** X8 on the cart with two additions of toothbrushes under THREE_FOR_TWO. *)
Lemma X8_one_discount_per_product_witness :
  NoDup (map Discount.product
           [Discount.mk toothbrush
              [IntField 3; Lit " for "; NumField (2 * (99 # 100))]
              (- (inject_Z 3 * (99 # 100)
                  - (2 * (99 # 100) * inject_Z 1
                     + inject_Z 0 * (99 # 100))))]).
Proof.
  apply (proj1 (X8_one_discount_per_product three_for_two_teller
                  two_additions
                  (Receipt.mk _
                     [Discount.mk toothbrush
                        [IntField 3; Lit " for "; NumField (2 * (99 # 100))]
                        (- (inject_Z 3 * (99 # 100)
                            - (2 * (99 # 100) * inject_Z 1
                               + inject_Z 0 * (99 # 100))))])
                  eq_refl)).
Defined.

Lemma run_cart_app ops ops' :
  run_cart (ops ++ ops') = fold_left apply_cart_op ops' (run_cart ops).
Proof. unfold run_cart. now rewrite fold_left_app. Qed.

Lemma contains_add_item_quantity cart product quantity p :
  PyDict.contains (ShoppingCart.product_quantities cart) p = true ->
  PyDict.contains
    (ShoppingCart.product_quantities
       (ShoppingCart.add_item_quantity cart product quantity)) p = true.
Proof.
  intro H. unfold ShoppingCart.add_item_quantity,
    ShoppingCart.product_quantities in *.
  cbn [ShoppingCart._product_quantities].
  rewrite contains_set, H. apply orb_true_r.
Qed.

Lemma contains_fold_add ops cart p :
  PyDict.contains (ShoppingCart.product_quantities cart) p = true ->
  PyDict.contains
    (ShoppingCart.product_quantities (fold_left apply_cart_op ops cart)) p
  = true.
Proof.
  revert cart. induction ops as [|op ops IH]; intros cart H; [exact H|].
  cbn [fold_left]. apply IH.
  destruct op; apply contains_add_item_quantity, H.
Qed.

(** X9: an addition changes the merged quantity of its own product only: the
    product's entry becomes its previous quantity (0 when it had none) plus
    the added one, whatever the sign of the added quantity, every other
    product keeps its entry, and the history gains that one entry at its end. *)
Theorem X9_addition_is_local :
  forall (cart : ShoppingCart.t) (product : Product.t) (quantity : Q),
    PyDict.get
      (ShoppingCart.product_quantities
         (ShoppingCart.add_item_quantity cart product quantity)) product
    = Some (PyDict.get_default (ShoppingCart.product_quantities cart)
              product 0 + quantity)
    /\ (forall other,
          other <> product ->
          PyDict.get
            (ShoppingCart.product_quantities
               (ShoppingCart.add_item_quantity cart product quantity)) other
          = PyDict.get (ShoppingCart.product_quantities cart) other)
    /\ ShoppingCart.items
         (ShoppingCart.add_item_quantity cart product quantity)
       = ShoppingCart.items cart ++ [ProductQuantity.mk product quantity].
Proof.
  intros cart product quantity.
  unfold ShoppingCart.add_item_quantity, ShoppingCart.product_quantities,
    ShoppingCart.items.
  cbn [ShoppingCart._items ShoppingCart._product_quantities].
  split; [|split].
  - now rewrite get_set, Product_eqb_refl.
  - intros other Hne. rewrite get_set.
    destruct (Product.eqb product other) eqn:E; [|reflexivity].
    apply Product_eqb_eq in E. congruence.
  - reflexivity.
Qed.

(** X10: a cart only grows: after further additions the earlier history is a
    prefix of the history, and a product that was in the merged map is still
    in it, even when the later additions bring its quantity back to 0 or
    below. *)
Theorem X10_cart_only_grows :
  forall (ops ops' : list cart_op) (product : Product.t),
    ShoppingCart.items (run_cart (ops ++ ops'))
    = ShoppingCart.items (run_cart ops) ++ map cart_op_entry ops'
    /\ (PyDict.contains (ShoppingCart.product_quantities (run_cart ops))
          product = true ->
        PyDict.contains
          (ShoppingCart.product_quantities (run_cart (ops ++ ops'))) product
        = true).
Proof.
  intros ops ops' product. split.
  - now rewrite !run_cart_items, map_app.
  - intro H. rewrite run_cart_app. apply contains_fold_add, H.
Qed.

(** ** The offers of the teller *)

Lemma set_set {V : Type} (d : PyDict.t V) (k : Product.t) (v v' : V) :
  PyDict.set (PyDict.set d k v) k v' = PyDict.set d k v'.
Proof.
  induction d as [|[k1 v1] rest IH]; simpl.
  - now rewrite Product_eqb_refl.
  - destruct (Product.eqb k1 k) eqn:E; simpl; rewrite E.
    + reflexivity.
    + now rewrite IH.
Qed.

(** X11: registering an offer gives the product that offer and leaves the
    offers of the other products and the catalog as they were; registering
    again for the same product replaces the earlier offer without a trace:
    the teller is the one that only the last registration gives. *)
Theorem X11_last_offer_wins :
  forall (teller : Teller.t) (offer_type offer_type' : OfferType)
         (product : Product.t) (argument argument' : Q),
    PyDict.get
      (Teller.offers
         (Teller.add_special_offer teller offer_type product argument))
      product
    = Some (Offer.mk offer_type argument)
    /\ (forall other,
          other <> product ->
          PyDict.get
            (Teller.offers
               (Teller.add_special_offer teller offer_type product argument))
            other
          = PyDict.get (Teller.offers teller) other)
    /\ Teller.catalog
         (Teller.add_special_offer teller offer_type product argument)
       = Teller.catalog teller
    /\ Teller.add_special_offer
         (Teller.add_special_offer teller offer_type' product argument')
         offer_type product argument
       = Teller.add_special_offer teller offer_type product argument.
Proof.
  intros teller offer_type offer_type' product argument argument'.
  unfold Teller.add_special_offer. cbn [Teller.offers Teller.catalog].
  split; [|split; [|split]].
  - now rewrite get_set, Product_eqb_refl.
  - intros other Hne. rewrite get_set.
    destruct (Product.eqb product other) eqn:E; [|reflexivity].
    apply Product_eqb_eq in E. congruence.
  - reflexivity.
  - now rewrite set_set.
Qed.

(** ** When a checkout returns *)

Lemma handle_offers_loop_no_offer entries receipt offers catalog :
  (forall p q, In (p, q) entries -> PyDict.get offers p = None) ->
  ShoppingCart.handle_offers_loop entries receipt offers catalog = Ok receipt.
Proof.
  induction entries as [|[p q] entries IH]; intro H; [reflexivity|].
  rewrite handle_offers_loop_skip by (apply (H p q); now left).
  apply IH. intros p' q' Hin. apply (H p' q'). now right.
Qed.

Lemma add_cart_items_loop_app teller items items' receipt :
  Teller._add_cart_items_loop teller (items ++ items') receipt
  = (receipt' <- Teller._add_cart_items_loop teller items receipt;;
     Teller._add_cart_items_loop teller items' receipt').
Proof.
  revert receipt. induction items as [|e items IH]; intro receipt;
    [reflexivity|].
  cbn [app Teller._add_cart_items_loop].
  destruct (Teller._process_item teller _ _ receipt) as [r|err];
    cbn [bind]; [apply IH | reflexivity].
Qed.

Lemma Forall2_priced catalog items lines :
  Forall2 (receipt_line_of catalog) items lines ->
  Forall (fun e => exists unit_price,
            catalog (ProductQuantity.product e) = Ok unit_price) items.
Proof.
  induction 1 as [|e line items lines [_ [_ [Hcat _]]] _ IH];
    constructor; [eexists; exact Hcat | exact IH].
Qed.

(** X12: when no product of the cart has an offer, [handle_offers] returns
    the receipt as it was, for any catalog and any quantities: nothing is
    priced or validated there.  The checkout then returns exactly when the
    catalog prices every entry of the history, and the receipt it returns has
    no discount. *)
Theorem X12_no_offer_no_validation :
  forall (teller : Teller.t) (cart : ShoppingCart.t),
    (forall p q,
        In (p, q) (PyDict.items (ShoppingCart.product_quantities cart)) ->
        PyDict.get (Teller.offers teller) p = None) ->
    (forall receipt catalog,
        ShoppingCart.handle_offers cart receipt (Teller.offers teller) catalog
        = Ok receipt)
    /\ ((exists receipt,
           Teller.checks_out_articles_from teller cart = Ok receipt)
        <-> Forall (fun e => exists unit_price,
                      Teller.catalog teller (ProductQuantity.product e)
                      = Ok unit_price)
              (ShoppingCart.items cart))
    /\ (forall receipt,
          Teller.checks_out_articles_from teller cart = Ok receipt ->
          Receipt.discounts receipt = []).
Proof.
  intros teller cart Hnone.
  assert (Hloop : forall receipt catalog,
            ShoppingCart.handle_offers cart receipt (Teller.offers teller)
              catalog = Ok receipt).
  { intros receipt catalog. unfold ShoppingCart.handle_offers.
    apply handle_offers_loop_no_offer. exact Hnone. }
  split; [exact Hloop|]. split.
  - split.
    + intros [receipt H]. apply checkout_inv in H. destruct H as [Hl _].
      apply (Forall2_priced _ _ _ Hl).
    + intro Hpriced. apply checkout_total; [exact Hpriced|].
      apply Forall_forall. intros [p q] Hin offer Hoff. cbn in Hoff.
      rewrite (Hnone p q Hin) in Hoff. discriminate.
  - intros receipt H.
    unfold Teller.checks_out_articles_from, Teller._apply_offers in H.
    cbv zeta in H.
    destruct (Teller._add_cart_items_to_receipt teller cart Receipt.__init__)
      as [r1|err] eqn:H1; [|discriminate].
    cbn [bind] in H. rewrite Hloop in H. cbn [bind] in H.
    inversion H; subst r1.
    apply add_cart_items_loop_inv in H1. destruct H1 as [_ [_ [Hd _]]].
    exact Hd.
Qed.

(** X12 on a cart with a returned toothbrush and no offer at all. *)
Lemma X12_no_offer_no_validation_witness :
  ShoppingCart.handle_offers
    (run_cart [AddItemQuantity toothbrush (-1)]) Receipt.__init__
    (Teller.offers (Teller.__init__ test_catalog)) test_catalog
  = Ok Receipt.__init__.
Proof.
  apply (proj1 (X12_no_offer_no_validation (Teller.__init__ test_catalog)
                  (run_cart [AddItemQuantity toothbrush (-1)])
                  (fun p q _ => eq_refl))).
Defined.

(** X13: the lines are priced before any offer is looked at: when the
    catalog raises on an entry of the history and prices the entries before
    it, the checkout raises that error, whatever the offers are. *)
Theorem X13_catalog_error_first :
  forall (teller : Teller.t) (cart : ShoppingCart.t)
         (before after : list ProductQuantity.t) (entry : ProductQuantity.t)
         (e : exception),
    ShoppingCart.items cart = before ++ entry :: after ->
    Forall (fun e' => exists unit_price,
              Teller.catalog teller (ProductQuantity.product e')
              = Ok unit_price) before ->
    Teller.catalog teller (ProductQuantity.product entry) = Raise e ->
    Teller.checks_out_articles_from teller cart = Raise e.
Proof.
  intros teller cart before after entry e Hsplit Hbefore Hraise.
  unfold Teller.checks_out_articles_from, Teller._add_cart_items_to_receipt.
  cbv zeta. rewrite Hsplit, add_cart_items_loop_app.
  destruct (add_cart_items_loop_total teller before Receipt.__init__ Hbefore)
    as [r1 H1].
  rewrite H1. cbn [bind Teller._add_cart_items_loop].
  unfold Teller._process_item. rewrite Hraise. reflexivity.
Qed.

(** X13 on a cart with a toothbrush, then a product the catalog does not
    know. *)
Lemma X13_catalog_error_first_witness :
  Teller.checks_out_articles_from three_for_two_teller
    (run_cart [AddItem toothbrush; AddItem unknown_product; AddItem rice])
  = Raise (KeyError unknown_product).
Proof.
  apply (X13_catalog_error_first three_for_two_teller
           (run_cart [AddItem toothbrush; AddItem unknown_product;
                      AddItem rice])
           [ProductQuantity.mk toothbrush 1]
           [ProductQuantity.mk rice 1]
           (ProductQuantity.mk unknown_product 1)
           (KeyError unknown_product) eq_refl).
  - constructor; [|constructor]. eexists. reflexivity.
  - reflexivity.
Defined.

(** X14: a checkout returns a receipt exactly when the catalog prices every
    entry of the history and, for every entry of the merged map whose product
    has an offer, the engine returns (a discount or none) on the merged
    quantity and the catalog's price; otherwise it raises. *)
Theorem X14_checkout_returns_iff :
  forall (teller : Teller.t) (cart : ShoppingCart.t),
    (exists receipt, Teller.checks_out_articles_from teller cart = Ok receipt)
    <-> (Forall (fun e => exists unit_price,
                   Teller.catalog teller (ProductQuantity.product e)
                   = Ok unit_price)
           (ShoppingCart.items cart)
         /\ Forall (offer_computes (Teller.offers teller)
                      (Teller.catalog teller))
              (PyDict.items (ShoppingCart.product_quantities cart))).
Proof.
  intros teller cart. split.
  - intros [receipt H]. apply checkout_inv in H.
    destruct H as [Hl [_ Hall]]. split; [|exact Hall].
    apply (Forall2_priced _ _ _ Hl).
  - intros [Hpriced Hall]. apply checkout_total; assumption.
Qed.

(** ** The line formatter of the printer *)

Lemma string_length_app (s t : string) :
  String.length (s ++ t) = (String.length s + String.length t)%nat.
Proof. induction s as [|c s IH]; simpl; [reflexivity | now rewrite IH]. Qed.

Lemma take_length (n : nat) (s : string) :
  String.length (take n s) = Nat.min n (String.length s).
Proof.
  revert s. induction n as [|n IH]; intros [|c s]; simpl; try reflexivity.
  now rewrite IH.
Qed.

Lemma repeat_space_length (n : nat) :
  String.length (repeat_string " " n) = n.
Proof. induction n as [|n IH]; simpl; [reflexivity | now rewrite IH]. Qed.

Lemma slice_to_length (s : string) (stop : Z) :
  Z.of_nat (String.length (slice_to s stop))
  = Z.max 0 (Z.min (Z.of_nat (String.length s))
               (if (stop <? 0)%Z then Z.of_nat (String.length s) + stop
                else stop))%Z.
Proof.
  unfold slice_to. destruct (stop <? 0)%Z eqn:E; rewrite take_length.
  - apply Z.ltb_lt in E. lia.
  - apply Z.ltb_ge in E. lia.
Qed.

Lemma format_line_length self name value :
  Z.of_nat (String.length
              (ReceiptPrinter.format_line_with_whitespace self name value))
  = (if (Z.of_nat (String.length name) + Z.of_nat (String.length value)
         >=? ReceiptPrinter.columns self)%Z
     then Z.of_nat (String.length
                      (slice_to name
                         (ReceiptPrinter.columns self
                          - Z.of_nat (String.length value) - 3)))
          + 3 + Z.of_nat (String.length value) + 1
     else ReceiptPrinter.columns self + 1)%Z.
Proof.
  unfold ReceiptPrinter.format_line_with_whitespace. cbv zeta.
  destruct (_ >=? _)%Z eqn:E.
  - rewrite !string_length_app. cbn [String.length newline]. lia.
  - assert (Hlt : (Z.of_nat (String.length name)
                   + Z.of_nat (String.length value)
                   < ReceiptPrinter.columns self)%Z).
    { destruct (Z_lt_ge_dec
                  (Z.of_nat (String.length name)
                   + Z.of_nat (String.length value))
                  (ReceiptPrinter.columns self)) as [H | H]; [exact H|].
      rewrite (geb_true _ _ H) in E. discriminate. }
    rewrite !string_length_app. unfold str_mul.
    rewrite repeat_space_length. cbn [String.length newline]. lia.
Qed.

(** X15: a formatted line (without its newline) is never narrower than
    [columns] characters; it is exactly [columns] wide when the name and the
    value fit, or when the value with the three dots fits, and wider in the
    remaining case, where the slice of the name gets a negative end. *)
Theorem X15_formatted_line_width :
  forall (self : ReceiptPrinter.t) (name value : string),
    (ReceiptPrinter.columns self + 1
     <= Z.of_nat (String.length
                    (ReceiptPrinter.format_line_with_whitespace self name
                       value)))%Z
    /\ (Z.of_nat (String.length
                    (ReceiptPrinter.format_line_with_whitespace self name
                       value))
        = ReceiptPrinter.columns self + 1
        <-> Z.of_nat (String.length name) + Z.of_nat (String.length value)
            < ReceiptPrinter.columns self
            \/ Z.of_nat (String.length value) + 3
               <= ReceiptPrinter.columns self)%Z.
Proof.
  intros self name value. rewrite format_line_length, slice_to_length.
  destruct (_ >=? _)%Z eqn:E.
  - apply Z.geb_le in E.
    destruct (_ <? 0)%Z eqn:E2;
      [apply Z.ltb_lt in E2 | apply Z.ltb_ge in E2]; lia.
  - assert (Hlt : (Z.of_nat (String.length name)
                   + Z.of_nat (String.length value)
                   < ReceiptPrinter.columns self)%Z).
    { destruct (Z_lt_ge_dec
                  (Z.of_nat (String.length name)
                   + Z.of_nat (String.length value))
                  (ReceiptPrinter.columns self)) as [H | H]; [exact H|].
      rewrite (geb_true _ _ H) in E. discriminate. }
    lia.
Qed.

(** X16: the formatter keeps the value whole at the end of the line, before
    the newline; it keeps the name whole, followed by at least one blank,
    when the two fit in less than [columns], and otherwise puts three dots
    after the part of the name it keeps, which is the first
    columns - len(value) - 3 characters when that number is not negative. *)
Theorem X16_formatted_line_shape :
  forall (self : ReceiptPrinter.t) (name value : string),
    (exists kept filler,
        ReceiptPrinter.format_line_with_whitespace self name value
        = (kept ++ filler ++ value ++ newline)%string
        /\ kept = take (String.length kept) name
        /\ ((Z.of_nat (String.length name) + Z.of_nat (String.length value)
             < ReceiptPrinter.columns self)%Z ->
            kept = name
            /\ filler
               = repeat_string " " (String.length filler)
            /\ (1 <= String.length filler)%nat)
        /\ ((Z.of_nat (String.length name) + Z.of_nat (String.length value)
             >= ReceiptPrinter.columns self)%Z ->
            filler = "..."%string
            /\ ((Z.of_nat (String.length value) + 3
                 <= ReceiptPrinter.columns self)%Z ->
                kept
                = take (Z.to_nat (ReceiptPrinter.columns self
                                  - Z.of_nat (String.length value) - 3))
                    name))).
Proof.
  intros self name value.
  assert (Htake_all : forall s, s = take (String.length s) s).
  { induction s as [|c s IH]; simpl; [reflexivity | now rewrite <- IH]. }
  assert (Htake_take : forall n s,
            take n s = take (String.length (take n s)) s).
  { induction n as [|n IH]; intros [|c s]; simpl; try reflexivity.
    now rewrite <- IH. }
  unfold ReceiptPrinter.format_line_with_whitespace. cbv zeta.
  destruct (_ >=? _)%Z eqn:E.
  - apply Z.geb_le in E.
    exists (slice_to name
              (ReceiptPrinter.columns self
               - Z.of_nat (String.length value) - 3)), "..."%string.
    split; [reflexivity|]. split; [|split].
    + unfold slice_to. destruct (_ <? 0)%Z; apply Htake_take.
    + intro Hlt. lia.
    + intros _. split; [reflexivity|]. intro Hfit. unfold slice_to.
      destruct (_ <? 0)%Z eqn:E2; [apply Z.ltb_lt in E2; lia | reflexivity].
  - assert (Hlt : (Z.of_nat (String.length name)
                   + Z.of_nat (String.length value)
                   < ReceiptPrinter.columns self)%Z).
    { destruct (Z_lt_ge_dec
                  (Z.of_nat (String.length name)
                   + Z.of_nat (String.length value))
                  (ReceiptPrinter.columns self)) as [H | H]; [exact H|].
      rewrite (geb_true _ _ H) in E. discriminate. }
    exists name, (str_mul " " (ReceiptPrinter.columns self
                               - (Z.of_nat (String.length name)
                                  + Z.of_nat (String.length value)))).
    split; [reflexivity|]. split; [apply Htake_all|]. split.
    + intros _. split; [reflexivity|]. unfold str_mul.
      rewrite repeat_space_length. split; [reflexivity | lia].
    + intro Hge. lia.
Qed.

Example test_formats_lines_with_whitespace_correctly :
  ReceiptPrinter.format_line_with_whitespace
    (ReceiptPrinter.__init__ (Some 20%Z)) "Name" "Value"
  = ("Name           Value" ++ newline)%string.
Proof. reflexivity. Qed.

(** ** Offers that do not concern the cart *)

Lemma handle_offers_loop_cons product quantity rest receipt offers catalog :
  ShoppingCart.handle_offers_loop ((product, quantity) :: rest) receipt
    offers catalog
  = match PyDict.get offers product with
    | None => ShoppingCart.handle_offers_loop rest receipt offers catalog
    | Some offer =>
        unit_price <- catalog product;;
        discount <- compute product quantity unit_price offer;;
        match discount with
        | Some d =>
            ShoppingCart.handle_offers_loop rest
              (Receipt.add_discount receipt d) offers catalog
        | None => ShoppingCart.handle_offers_loop rest receipt offers catalog
        end
    end.
Proof.
  destruct (PyDict.get offers product) as [offer|] eqn:Hoff.
  - destruct (catalog product) as [up|err] eqn:Hcat.
    + rewrite (handle_offers_loop_step _ _ _ _ _ _ _ _ Hoff Hcat).
      reflexivity.
    + cbn [ShoppingCart.handle_offers_loop]. unfold PyDict.contains.
      rewrite Hoff, Hcat. reflexivity.
  - apply handle_offers_loop_skip, Hoff.
Qed.

Lemma handle_offers_loop_ext entries receipt offers offers' catalog :
  (forall p q,
      In (p, q) entries -> PyDict.get offers p = PyDict.get offers' p) ->
  ShoppingCart.handle_offers_loop entries receipt offers catalog
  = ShoppingCart.handle_offers_loop entries receipt offers' catalog.
Proof.
  revert receipt. induction entries as [|[p q] entries IH]; intros receipt H;
    [reflexivity|].
  assert (Hrest : forall r,
            ShoppingCart.handle_offers_loop entries r offers catalog
            = ShoppingCart.handle_offers_loop entries r offers' catalog).
  { intro r. apply IH. intros p' q' Hin. apply (H p' q'). now right. }
  rewrite !handle_offers_loop_cons, <- (H p q) by now left.
  destruct (PyDict.get offers p) as [offer|]; [|apply Hrest].
  destruct (catalog p) as [up|err]; [|reflexivity]. cbn [bind].
  destruct (compute p q up offer) as [[d|]|err]; cbn [bind];
    [apply Hrest | apply Hrest | reflexivity].
Qed.

Lemma checkout_offers_ext teller teller' cart :
  Teller.catalog teller' = Teller.catalog teller ->
  (forall p q,
      In (p, q) (PyDict.items (ShoppingCart.product_quantities cart)) ->
      PyDict.get (Teller.offers teller) p
      = PyDict.get (Teller.offers teller') p) ->
  Teller.checks_out_articles_from teller cart
  = Teller.checks_out_articles_from teller' cart.
Proof.
  intros Hcat Hoff.
  unfold Teller.checks_out_articles_from, Teller._add_cart_items_to_receipt,
    Teller._apply_offers, ShoppingCart.handle_offers. cbv zeta.
  assert (Hlines : forall items r,
            Teller._add_cart_items_loop teller items r
            = Teller._add_cart_items_loop teller' items r).
  { induction items as [|e items IH]; intro r; [reflexivity|].
    cbn [Teller._add_cart_items_loop]. unfold Teller._process_item.
    rewrite Hcat.
    destruct (Teller.catalog teller (ProductQuantity.product e));
      cbn [bind]; [apply IH | reflexivity]. }
  rewrite Hlines, Hcat.
  destruct (Teller._add_cart_items_loop teller' _ _) as [r1|err];
    cbn [bind]; [|reflexivity].
  now rewrite (handle_offers_loop_ext _ r1 _ _ _ Hoff).
Qed.

Lemma contains_false_not_In {V : Type} (d : PyDict.t V) p q product :
  PyDict.contains d product = false -> In (p, q) d -> p <> product.
Proof.
  intros Hc Hin ->.
  assert (Hk : In product (PyDict.keys d)).
  { unfold PyDict.keys. apply in_map_iff. exists (product, q). auto. }
  apply contains_keys in Hk. congruence.
Qed.

(** X20: an offer registered for a product that is not in the cart changes
    nothing: the checkout gives the same result, receipt or error, as
    without that registration. *)
Theorem X20_offer_on_absent_product :
  forall (teller : Teller.t) (cart : ShoppingCart.t) (offer_type : OfferType)
         (product : Product.t) (argument : Q),
    PyDict.contains (ShoppingCart.product_quantities cart) product = false ->
    Teller.checks_out_articles_from
      (Teller.add_special_offer teller offer_type product argument) cart
    = Teller.checks_out_articles_from teller cart.
Proof.
  intros teller cart offer_type product argument Habsent.
  apply checkout_offers_ext; [reflexivity|].
  intros p q Hin. unfold Teller.add_special_offer. cbn [Teller.offers].
  rewrite get_set.
  pose proof (contains_false_not_In _ _ _ _ Habsent Hin) as Hne.
  destruct (Product.eqb product p) eqn:E; [|reflexivity].
  apply Product_eqb_eq in E. congruence.
Qed.

(** X20 with an out-of-range percentage on rice and a cart of toothbrushes. *)
Lemma X20_offer_on_absent_product_witness :
  Teller.checks_out_articles_from
    (Teller.add_special_offer three_for_two_teller TEN_PERCENT_DISCOUNT rice
       150)
    (run_cart two_additions)
  = Teller.checks_out_articles_from three_for_two_teller
      (run_cart two_additions).
Proof.
  apply (X20_offer_on_absent_product three_for_two_teller
           (run_cart two_additions) TEN_PERCENT_DISCOUNT rice 150 eq_refl).
Defined.

(** X21: the order in which offers for two different products are registered
    does not matter to any checkout. *)
Theorem X21_registration_order :
  forall (teller : Teller.t) (cart : ShoppingCart.t)
         (offer_type1 offer_type2 : OfferType) (product1 product2 : Product.t)
         (argument1 argument2 : Q),
    product1 <> product2 ->
    Teller.checks_out_articles_from
      (Teller.add_special_offer
         (Teller.add_special_offer teller offer_type1 product1 argument1)
         offer_type2 product2 argument2) cart
    = Teller.checks_out_articles_from
        (Teller.add_special_offer
           (Teller.add_special_offer teller offer_type2 product2 argument2)
           offer_type1 product1 argument1) cart.
Proof.
  intros teller cart ot1 ot2 p1 p2 a1 a2 Hne.
  apply checkout_offers_ext; [reflexivity|].
  intros p q _. unfold Teller.add_special_offer. cbn [Teller.offers].
  rewrite !get_set.
  destruct (Product.eqb p2 p) eqn:E2, (Product.eqb p1 p) eqn:E1;
    try reflexivity.
  apply Product_eqb_eq in E1, E2. congruence.
Qed.

(** X21 on THREE_FOR_TWO for toothbrushes and 10 percent for rice. *)
Lemma X21_registration_order_witness :
  Teller.checks_out_articles_from
    (Teller.add_special_offer
       (Teller.add_special_offer (Teller.__init__ test_catalog)
          THREE_FOR_TWO toothbrush 0)
       TEN_PERCENT_DISCOUNT rice 10)
    (run_cart rice_then_toothbrushes)
  = Teller.checks_out_articles_from
      (Teller.add_special_offer
         (Teller.add_special_offer (Teller.__init__ test_catalog)
            TEN_PERCENT_DISCOUNT rice 10)
         THREE_FOR_TWO toothbrush 0)
      (run_cart rice_then_toothbrushes).
Proof.
  apply (X21_registration_order (Teller.__init__ test_catalog)
           (run_cart rice_then_toothbrushes) THREE_FOR_TWO
           TEN_PERCENT_DISCOUNT toothbrush rice 0 10).
  discriminate.
Defined.
